(** * Cash-flow forecasting backend: the [/forecast] request pipeline

    A shallow embedding of [backend/app.py].  The handler reads an uploaded
    table, normalises its headers, parses the month column, coerces the two
    cash-flow columns, forecasts each of them twelve months ahead and returns
    history and forecast as one list of records.

    The pandas / numpy / statsmodels calls of the handler are embedded as
    follows.
    - A [DataFrame] is a header list and a list of rows (lists of cells).
    - Numeric cells are IEEE binary64 numbers (Rocq's primitive floats), so
      [+] is the addition the interpreter performs and NaN is a value.
    - [pd.to_datetime(..., format=..., errors="coerce")] is [to_datetime], with
      the two formats the handler uses.
    - Reading a file and fitting a smoothing model are external capabilities:
      fields of an [External] record.  Each use is logged in a trace of
      events, so that "nothing was parsed" and "nothing was fitted" are
      statements about the trace.
    - A Python exception is a value of [exn]; the handler's outer
      [try/except] turns it into a 500 response. *)

From Stdlib Require Import PrimFloat ZArith List String Ascii Bool Lia.
From Stdlib Require Import Sorting.Sorted Permutation DecimalString.
Import ListNotations.

Local Open Scope Z_scope.
Local Open Scope list_scope.

Set Implicit Arguments.

(** ** Exceptions and the error monad *)

Inductive exn : Type :=
| KeyError (key : string)
| AttributeError (msg : string)
| TypeError (msg : string)
| ValueError (msg : string)
| InvalidIndexError (msg : string)
| LibraryError (msg : string).

(** [str(e)], the text the handler sends back with status 500. *)
Definition str (e : exn) : string :=
  match e with
  | KeyError k => String.append "'" (String.append k "'")
  | AttributeError m | TypeError m | ValueError m
  | InvalidIndexError m | LibraryError m => m
  end.

Definition res (A : Type) : Type := (exn + A)%type.

Definition ok {A} (a : A) : res A := inr a.
Definition raise {A} (e : exn) : res A := inl e.

Definition rbind {A B} (m : res A) (k : A -> res B) : res B :=
  match m with
  | inl e => inl e
  | inr a => k a
  end.

Declare Scope res_scope.
Delimit Scope res_scope with res.
Notation "x <~ m ;; k" := (rbind m (fun x => k))
  (at level 61, m at next level, right associativity) : res_scope.

(** ** Calendar dates *)

Record date : Type := mkDate { year : Z; month : Z; day : Z }.

Definition date_eqb (a b : date) : bool :=
  (year a =? year b) && (month a =? month b) && (day a =? day b).

(** Chronological order, [a <= b]. *)
Definition date_leb (a b : date) : bool :=
  (year a <? year b)
  || ((year a =? year b)
      && ((month a <? month b)
          || ((month a =? month b) && (day a <=? day b)))).

Definition date_ltb (a b : date) : bool := negb (date_leb b a).


Definition is_leap (y : Z) : bool :=
  ((y mod 4 =? 0) && negb (y mod 100 =? 0)) || (y mod 400 =? 0).

Definition days_in_month (y m : Z) : Z :=
  if m =? 2 then (if is_leap y then 29 else 28)
  else if (m =? 4) || (m =? 6) || (m =? 9) || (m =? 11) then 30
  else 31.

Definition valid_date (d : date) : bool :=
  (1 <=? month d) && (month d <=? 12)
  && (1 <=? day d) && (day d <=? days_in_month (year d) (month d)).

(** ** [strptime] for the directives [%d], [%b], [%y] and literals *)

Definition month_abbr : list string :=
  ["Jan"; "Feb"; "Mar"; "Apr"; "May"; "Jun";
   "Jul"; "Aug"; "Sep"; "Oct"; "Nov"; "Dec"]%string.

Definition is_digit (c : ascii) : bool :=
  let n := nat_of_ascii c in (48 <=? n)%nat && (n <=? 57)%nat.

Definition digit_val (c : ascii) : Z := Z.of_nat (nat_of_ascii c) - 48.

Definition lower (c : ascii) : ascii :=
  let n := nat_of_ascii c in
  if (65 <=? n)%nat && (n <=? 90)%nat then ascii_of_nat (n + 32) else c.

Fixpoint lower_string (s : string) : string :=
  match s with
  | EmptyString => EmptyString
  | String c s' => String (lower c) (lower_string s')
  end.

(** 1-based position of [s] among [l], compared without case. *)
Fixpoint index_ci (s : string) (l : list string) (i : Z) : option Z :=
  match l with
  | [] => None
  | x :: l' =>
      if String.eqb (lower_string x) (lower_string s) then Some i
      else index_ci s l' (i + 1)
  end.

Inductive directive : Type :=
| Dir_d                 (* %d  day of the month *)
| Dir_b                 (* %b  abbreviated month name *)
| Dir_y                 (* %y  year without century *)
| Dir_lit (c : ascii).  (* a literal character *)

Record fields : Type :=
  mkFields { f_year : option Z; f_month : option Z; f_day : option Z }.

(** [%d] is the pattern [3[0-1]|[1-2]\d|0[1-9]|[1-9]| [1-9]]; the
    alternatives are tried in this order.  Both formats of the handler put a
    literal after [%d], so the first alternative that matches is the one a
    backtracking matcher keeps. *)
Definition match_d (s : string) : option (Z * string) :=
  let nz c := is_digit c && negb (Ascii.eqb c "0") in
  match s with
  | String c1 (String c2 r) =>
      if Ascii.eqb c1 "3" && (Ascii.eqb c2 "0" || Ascii.eqb c2 "1")
      then Some (30 + digit_val c2, r)
      else if (Ascii.eqb c1 "1" || Ascii.eqb c1 "2") && is_digit c2
      then Some (10 * digit_val c1 + digit_val c2, r)
      else if Ascii.eqb c1 "0" && nz c2 then Some (digit_val c2, r)
      else if nz c1 then Some (digit_val c1, String c2 r)
      else if Ascii.eqb c1 " " && nz c2 then Some (digit_val c2, r)
      else None
  | String c1 EmptyString =>
      if nz c1 then Some (digit_val c1, EmptyString) else None
  | EmptyString => None
  end.

(** [%y] is two digits; 00..68 are 2000..2068, 69..99 are 1969..1999. *)
Definition match_y (s : string) : option (Z * string) :=
  match s with
  | String c1 (String c2 r) =>
      if is_digit c1 && is_digit c2 then
        let y := 10 * digit_val c1 + digit_val c2 in
        Some ((if y <=? 68 then 2000 + y else 1900 + y), r)
      else None
  | _ => None
  end.

(** [%b] is one of the twelve three-letter abbreviations, in any case. *)
Definition match_b (s : string) : option (Z * string) :=
  match s with
  | String c1 (String c2 (String c3 r)) =>
      match index_ci (String c1 (String c2 (String c3 EmptyString)))
                     month_abbr 1 with
      | Some m => Some (m, r)
      | None => None
      end
  | _ => None
  end.

Fixpoint match_format (fmt : list directive) (s : string) (acc : fields)
  : option fields :=
  match fmt with
  | [] => match s with EmptyString => Some acc | _ => None end
  | Dir_lit c :: fmt' =>
      match s with
      | String c' r => if Ascii.eqb c c' then match_format fmt' r acc else None
      | EmptyString => None
      end
  | Dir_d :: fmt' =>
      match match_d s with
      | Some (d, r) =>
          match_format fmt' r (mkFields (f_year acc) (f_month acc) (Some d))
      | None => None
      end
  | Dir_b :: fmt' =>
      match match_b s with
      | Some (m, r) =>
          match_format fmt' r (mkFields (f_year acc) (Some m) (f_day acc))
      | None => None
      end
  | Dir_y :: fmt' =>
      match match_y s with
      | Some (y, r) =>
          match_format fmt' r (mkFields (Some y) (f_month acc) (f_day acc))
      | None => None
      end
  end.

(** The whole string must match; missing fields default to 1900-01-01 and the
    date must exist in the calendar. *)
Definition strptime (fmt : list directive) (s : string) : option date :=
  match match_format fmt s (mkFields None None None) with
  | Some f =>
      let d := mkDate (match f_year f with Some y => y | None => 1900 end)
                      (match f_month f with Some m => m | None => 1 end)
                      (match f_day f with Some d => d | None => 1 end) in
      if valid_date d then Some d else None
  | None => None
  end.

(** ["%y-%b"], e.g. [24-Jan]. *)
Definition fmt_y_b : list directive := [Dir_y; Dir_lit "-"; Dir_b].

(** ["%d-%b-%y"], e.g. [15-Jan-24]. *)
Definition fmt_d_b_y : list directive :=
  [Dir_d; Dir_lit "-"; Dir_b; Dir_lit "-"; Dir_y].

Definition string_of_Z (z : Z) : string := NilZero.string_of_int (Z.to_int z).

(** [strftime("%b-%Y")], e.g. [Jan-2025]. *)
Definition strftime_b_Y (d : date) : string :=
  String.append (nth (Z.to_nat (month d - 1)) month_abbr EmptyString)
                (String.append "-" (string_of_Z (year d))).

(** ** Cells and data frames *)

Local Open Scope float_scope.

Inductive cell : Type :=
| CStr (s : string)
| CNum (x : float)      (* a float64, NaN included *)
| CDate (d : date)      (* a Timestamp *)
| CNaT                  (* the missing Timestamp *)
| CNone.                (* None *)

(** [pd.isna]: NaN, NaT and None are missing; an infinity is not. *)
Definition isna (c : cell) : bool :=
  match c with
  | CNum x => PrimFloat.is_nan x
  | CNaT | CNone => true
  | CStr _ | CDate _ => false
  end.

Definition notna (c : cell) : bool := negb (isna c).

Definition to_float (c : cell) : float :=
  match c with CNum x => x | _ => nan end.

(** Headers may repeat; every row has one cell per header. *)
Record DataFrame : Type :=
  mkDF { columns : list string; rows : list (list cell) }.

Definition rectangular (df : DataFrame) : bool :=
  forallb (fun r => Nat.eqb (List.length r) (List.length (columns df)))
          (rows df).

Definition wf (df : DataFrame) : Prop := rectangular df = true.

(** [len(df)] *)
Definition len (df : DataFrame) : nat := List.length (rows df).

Definition has_column (key : string) (cols : list string) : bool :=
  existsb (String.eqb key) cols.

Fixpoint positions (key : string) (cols : list string) (i : nat) : list nat :=
  match cols with
  | [] => []
  | k :: cols' =>
      if String.eqb key k then i :: positions key cols' (S i)
      else positions key cols' (S i)
  end.

(** The cell of row [r] under the first header equal to [key]. *)
Fixpoint row_get (cols : list string) (key : string) (r : list cell)
  : option cell :=
  match cols, r with
  | k :: cols', c :: r' =>
      if String.eqb key k then Some c else row_get cols' key r'
  | _, _ => None
  end.

(** [df[key]] where a Series is needed.  A missing label is a [KeyError]; a
    repeated label selects a frame, on which the consumer raises [dup]. *)
Definition getitem (dup : exn) (df : DataFrame) (key : string)
  : res (list cell) :=
  match positions key (columns df) 0 with
  | [] => raise (KeyError key)
  | [i] => ok (map (fun r => nth i r CNone) (rows df))
  | _ :: _ :: _ => raise dup
  end.

Fixpoint set_row (cols : list string) (key : string) (v : cell)
  (r : list cell) : list cell :=
  match cols, r with
  | k :: cols', c :: r' =>
      (if String.eqb key k then v else c) :: set_row cols' key v r'
  | _, _ => r
  end.

(** [df[key] = vals]: an existing label is overwritten in place (every column
    carrying it), a new label is appended as the last column. *)
Definition setitem (df : DataFrame) (key : string) (vals : list cell)
  : DataFrame :=
  if has_column key (columns df) then
    mkDF (columns df)
         (map (fun rv => set_row (columns df) key (snd rv) (fst rv))
              (combine (rows df) vals))
  else
    mkDF (columns df ++ [key])
         (map (fun rv => fst rv ++ [snd rv]) (combine (rows df) vals)).

(** [df.dropna(subset=keys)] *)
Definition dropna (subset : list string) (df : DataFrame) : res DataFrame :=
  match find (fun k => negb (has_column k (columns df))) subset with
  | Some k => raise (KeyError k)
  | None =>
      ok (mkDF (columns df)
               (filter (fun r =>
                          forallb (fun k =>
                                     match row_get (columns df) k r with
                                     | Some c => notna c
                                     | None => false
                                     end) subset)
                       (rows df)))
  end.

(** Order of [sort_values]: dates ascending, anything else last. *)
Definition key_leb (a b : option cell) : bool :=
  match a, b with
  | Some (CDate x), Some (CDate y) => date_leb x y
  | Some (CDate _), _ => true
  | _, Some (CDate _) => false
  | _, _ => true
  end.

Section Sort.
Variable A : Type.
Variable le : A -> A -> bool.

Fixpoint insert (x : A) (l : list A) : list A :=
  match l with
  | [] => [x]
  | y :: l' => if le x y then x :: y :: l' else y :: insert x l'
  end.

Fixpoint sort (l : list A) : list A :=
  match l with
  | [] => []
  | x :: l' => insert x (sort l')
  end.
End Sort.

(** [df.sort_values(key)].  Rows with equal keys keep their relative order
    here; pandas leaves their order unspecified. *)
Definition sort_values (key : string) (df : DataFrame) : res DataFrame :=
  if has_column key (columns df) then
    ok (mkDF (columns df)
             (sort (fun r1 r2 => key_leb (row_get (columns df) key r1)
                                         (row_get (columns df) key r2))
                   (rows df)))
  else raise (KeyError key).

(** [pd.to_datetime(col, format=fmt, errors="coerce")], cell by cell: a string
    is parsed under [fmt], a Timestamp is kept, everything else (numbers,
    missing values, a string that does not match) becomes NaT. *)
Definition to_datetime (fmt : list directive) (c : cell) : cell :=
  match c with
  | CStr s => match strptime fmt s with Some d => CDate d | None => CNaT end
  | CDate d => CDate d
  | CNum _ | CNaT | CNone => CNaT
  end.

(** Elementwise [a + b] of two float columns. *)
Definition series_add (a b : list cell) : list cell :=
  map (fun xy => CNum (to_float (fst xy) + to_float (snd xy))) (combine a b).

(** ** Step 2: header normalisation *)

(** The ASCII characters [str.strip()] removes. *)
Definition is_space (c : ascii) : bool :=
  let n := nat_of_ascii c in
  (n =? 32)%nat || ((9 <=? n)%nat && (n <=? 13)%nat)
  || ((28 <=? n)%nat && (n <=? 31)%nat).

Fixpoint lstrip (s : string) : string :=
  match s with
  | String c s' => if is_space c then lstrip s' else s
  | EmptyString => EmptyString
  end.

Fixpoint rstrip (s : string) : string :=
  match s with
  | EmptyString => EmptyString
  | String c s' =>
      match rstrip s' with
      | EmptyString => if is_space c then EmptyString
                       else String c EmptyString
      | t => String c t
      end
  end.

Definition strip (s : string) : string := rstrip (lstrip s).

Definition rename_table : list (string * string) :=
  [("Months", "Month"); ("Cash Inflow", "Inflow");
   ("Cash Outflow", "Outflow"); ("Net Cash Flow", "Net_Cashflow")]%string.

Definition rename (c : string) : string :=
  match find (fun kv => String.eqb (fst kv) c) rename_table with
  | Some kv => snd kv
  | None => c
  end.

Definition standardize_columns (df : DataFrame) : DataFrame :=
  mkDF (map (fun c => rename (strip c)) (columns df)) (rows df).

(** ** numpy: [np.round(x, 2)] *)

Definition two52 : float := 0x1p52.

(** [rint]: the nearest integer, ties to even.  Below 2^52 in magnitude,
    adding and subtracting 2^52 rounds exactly so; from there on every float
    is an integer.  NaN and the infinities are returned as they are. *)
Definition rint (x : float) : float :=
  if PrimFloat.ltb (PrimFloat.abs x) two52 then
    let r := (PrimFloat.abs x + two52) - two52 in
    if PrimFloat.ltb x 0 then - r
    else if PrimFloat.eqb x 0 then x else r
  else x.

(** numpy scales, rounds to an integer and scales back. *)
Definition np_round2 (x : float) : float := rint (x * 100) / 100.

(** ** pandas: offsets, ranges, frames from dictionaries, concatenation *)

(** [ts + pd.offsets.MonthBegin(1)]: the first day of the next month. *)
Definition MonthBegin1 (d : date) : date :=
  if (month d =? 12)%Z then mkDate (year d + 1) 1 1
  else mkDate (year d) (month d + 1) 1.

(** [pd.date_range(start, periods=n, freq="MS")] for a [start] that is a
    month start. *)
Fixpoint date_range_MS (start : date) (periods : nat) : list date :=
  match periods with
  | O => []
  | S n => start :: date_range_MS (MonthBegin1 start) n
  end.

(** [pd.DataFrame({k: array, ...})]: arrays of different lengths are refused. *)
Definition DataFrame_of_dict (d : list (string * list cell)) : res DataFrame :=
  match d with
  | [] => ok (mkDF [] [])
  | (_, c0) :: _ =>
      let n := List.length c0 in
      if forallb (fun kc => Nat.eqb (List.length (snd kc)) n) d then
        ok (mkDF (map fst d)
                 (map (fun i => map (fun kc => nth i (snd kc) CNone) d)
                      (seq 0 n)))
      else raise (ValueError "All arrays must be of the same length")
  end.

Fixpoint nodup_b (l : list string) : bool :=
  match l with
  | [] => true
  | x :: l' => negb (has_column x l') && nodup_b l'
  end.

(** A row of a frame with headers [cols], laid out under [new_cols]; a header
    the frame lacks gives NaN. *)
Definition reindex_row (cols new_cols : list string) (r : list cell)
  : list cell :=
  map (fun k => match row_get cols k r with
                | Some c => c
                | None => CNum nan
                end) new_cols.

(** [pd.concat([a, b], ignore_index=True)] for a [b] with distinct headers:
    the headers of [a], then those only [b] has.  Repeated headers in [a]
    cannot be realigned and are refused. *)
Definition concat (a b : DataFrame) : res DataFrame :=
  let new_cols :=
    columns a ++ filter (fun k => negb (has_column k (columns a))) (columns b)
  in
  if nodup_b (columns a) then
    ok (mkDF new_cols
             (map (reindex_row (columns a) new_cols) (rows a)
              ++ map (reindex_row (columns b) new_cols) (rows b)))
  else
    raise (InvalidIndexError
             "Reindexing only valid with uniquely valued Index objects").

(** [.replace([np.nan, np.inf, -np.inf], None)] on one cell. *)
Definition replace_nonfinite (c : cell) : cell :=
  match c with
  | CNum x => if PrimFloat.is_nan x || PrimFloat.is_infinity x then CNone
              else CNum x
  | _ => c
  end.

(** [.dropna(how="all")] *)
Definition dropna_all (df : DataFrame) : DataFrame :=
  mkDF (columns df) (filter (existsb notna) (rows df)).

Definition record : Type := list (string * cell).

(** [.to_dict(orient="records")] *)
Definition to_dict_records (df : DataFrame) : list record :=
  map (combine (columns df)) (rows df).

(** [.dt.strftime("%b-%Y")] on one cell of a datetime column. *)
Definition dt_strftime (c : cell) : cell :=
  match c with
  | CDate d => CStr (strftime_b_Y d)
  | _ => CNum nan
  end.

(** ** External capabilities and the trace of their uses *)

Inductive file_kind : Type := Csv | Excel.

Inductive smoothing : Type :=
| Holt       (* ExponentialSmoothing(series, trend="add", seasonal=None) *)
| Simple.    (* SimpleExpSmoothing(series) *)

Inductive event : Type :=
| EvRead (k : file_kind)                  (* pd.read_csv / pd.read_excel *)
| EvFit (m : smoothing) (label : string). (* fit and forecast of one model *)

(** A series: the values with their index. *)
Definition Series : Type := list (cell * float).

Record External : Type := mkExternal {
  (* the readers, from the bytes of the upload *)
  read_csv : string -> res DataFrame;
  read_excel : string -> res DataFrame;
  (* how [pd.to_numeric] reads a string cell *)
  float_of_str : string -> option float;
  (* construct, fit and [forecast(n)], for each of the two models *)
  ExponentialSmoothing : Series -> nat -> res (list float);
  SimpleExpSmoothing : Series -> nat -> res (list float)
}.

Definition trace : Type := list event.

(** Computations that may raise and that log their external calls. *)
Definition M (A : Type) : Type := trace -> res A * trace.

Definition ret {A} (a : A) : M A := fun t => (inr a, t).

Definition bind {A B} (m : M A) (k : A -> M B) : M B :=
  fun t => match m t with
           | (inl e, t') => (inl e, t')
           | (inr a, t') => k a t'
           end.

Definition lift {A} (r : res A) : M A := fun t => (r, t).

(** An external call: logged, then its result or its exception. *)
Definition call {A} (ev : event) (r : res A) : M A := fun t => (r, t ++ [ev]).

(** [try: m  except Exception as e: h e] *)
Definition try_except {A} (m : M A) (h : exn -> M A) : M A :=
  fun t => match m t with
           | (inl e, t') => h e t'
           | (inr a, t') => (inr a, t')
           end.

Declare Scope M_scope.
Delimit Scope M_scope with M.
Notation "x <- m ;; k" := (bind m (fun x => k))
  (at level 61, m at next level, right associativity) : M_scope.

(** ** The request and the response *)

Record FileStorage : Type := mkFile { filename : string; stream : string }.

(** [request.files.get("file")] *)
Definition request : Type := option FileStorage.

Inductive response : Type :=
| JsonSuccess (rows_received : nat) (forecast : list record)  (* 200 *)
| JsonError (status : nat) (error : string).

(** [s.endswith(suffix)] *)
Definition endswith (s suffix : string) : bool :=
  let n := String.length s in
  let k := String.length suffix in
  (k <=? n)%nat && String.eqb (substring (n - k) k s) suffix.

(** The reader chosen from the file name, if any. *)
Definition reader (name : string) : option file_kind :=
  if endswith name ".csv" then Some Csv
  else if endswith name ".xlsx" || endswith name ".xls" then Some Excel
  else None.

(** What the consumers of [df[key]] raise when the label is repeated and a
    frame is selected.  The first and the third are what a table with two
    [Month], [Inflow] or [Outflow] columns runs into (lines 43, 53, 54); at
    the other lookups the label has already been found to occur once. *)
Definition frame_tolist : exn :=
  AttributeError "'DataFrame' object has no attribute 'tolist'".
Definition frame_to_datetime : exn :=
  ValueError
    "to assemble mappings requires at least that [year, month, day] be specified".
Definition frame_to_numeric : exn :=
  TypeError "arg must be a list, tuple, 1-d array, or Series".
Definition frame_isna : exn :=
  ValueError "The truth value of a Series is ambiguous".
Definition frame_add : exn :=
  ValueError "Cannot set a DataFrame with multiple columns to a single column".
Definition frame_values : exn :=
  ValueError "Data must be 1-dimensional".

(** [pd.Timestamp(x)] on a cell that is no Timestamp (after step 3 the
    [Month] column holds nothing else). *)
Definition not_a_timestamp : exn :=
  TypeError "Cannot convert input to Timestamp".

Section Handler.

Variable E : External.

Local Open Scope string_scope.

(** [pd.to_numeric(col, errors="coerce")], cell by cell: a number is kept, a
    string is read or becomes NaN, anything else becomes NaN. *)
Definition to_numeric (c : cell) : cell :=
  match c with
  | CNum x => CNum x
  | CStr s => match float_of_str E s with
              | Some x => CNum x
              | None => CNum nan
              end
  | CDate _ | CNaT | CNone => CNum nan
  end.

(** Step 3, with the lookup of the diagnostic print before it. *)
Definition parse_months (df : DataFrame) : res DataFrame :=
  (_ <~ getitem frame_tolist df "Month";;
   col <~ getitem frame_to_datetime df "Month";;
   let df := setitem df "Month" (map (to_datetime fmt_y_b) col) in
   col <~ getitem frame_isna df "Month";;
   df <~ (if forallb isna col then
            col <~ getitem frame_to_datetime df "Month";;
            ok (setitem df "Month" (map (to_datetime fmt_d_b_y) col))
          else ok df);;
   df <~ dropna ["Month"] df;;
   sort_values "Month" df)%res.

(** Step 4, up to the second [dropna]. *)
Definition convert_numerics (df : DataFrame) : res DataFrame :=
  (col <~ getitem frame_to_numeric df "Inflow";;
   let df := setitem df "Inflow" (map to_numeric col) in
   col <~ getitem frame_to_numeric df "Outflow";;
   let df := setitem df "Outflow" (map to_numeric col) in
   a <~ getitem frame_add df "Inflow";;
   b <~ getitem frame_add df "Outflow";;
   let df := setitem df "Net_Cashflow" (series_add a b) in
   dropna ["Inflow"; "Outflow"] df)%res.

(** Steps 2 to 4: from the table as read to the cleaned history. *)
Definition clean (df : DataFrame) : res DataFrame :=
  (df <~ parse_months (standardize_columns df);;
   convert_numerics df)%res.

(** Step 5 *)
Definition safe_forecast (series : Series) (label : string)
  : M (list float) :=
  try_except
    (call (EvFit Holt label) (ExponentialSmoothing E series 12))
    (fun _ => call (EvFit Simple label) (SimpleExpSmoothing E series 12)).

(** [pd.Series(df[key].values, index=df["Month"])] *)
Definition series_of (df : DataFrame) (key : string) : res Series :=
  (values <~ getitem frame_values df key;;
   index <~ getitem frame_values df "Month";;
   ok (combine index (map to_float values)))%res.

(** [df["Month"].iloc[-1]] *)
Definition last_month (df : DataFrame) : res cell :=
  (col <~ getitem frame_values df "Month";;
   match col with
   | [] => raise (LibraryError "single positional indexer is out-of-bounds")
   | _ => ok (last col CNaT)
   end)%res.

(** [forecast_index] of step 6. *)
Definition forecast_index (last_date : cell) : res (list date) :=
  match last_date with
  | CDate d => ok (date_range_MS (MonthBegin1 d) 12)
  | _ => raise not_a_timestamp
  end.

(** Step 6 and the aliasing of step 7: the frame [forecast_df]. *)
Definition build_forecast_df (last_date : cell)
  (inflow_forecast outflow_forecast : list float) : res DataFrame :=
  (idx <~ forecast_index last_date;;
   fdf <~ DataFrame_of_dict
            [("Month", map (fun d => CStr (strftime_b_Y d)) idx);
             ("Inflow_Forecast",
               map (fun x => CNum (np_round2 x)) inflow_forecast);
             ("Outflow_Forecast",
               map (fun x => CNum (np_round2 x)) outflow_forecast)];;
   a <~ getitem frame_add fdf "Inflow_Forecast";;
   b <~ getitem frame_add fdf "Outflow_Forecast";;
   let fdf := setitem fdf "Net_Cashflow_Forecast" (series_add a b) in
   c <~ getitem frame_add fdf "Inflow_Forecast";;
   let fdf := setitem fdf "Inflow" c in
   c <~ getitem frame_add fdf "Outflow_Forecast";;
   let fdf := setitem fdf "Outflow" c in
   c <~ getitem frame_add fdf "Net_Cashflow_Forecast";;
   ok (setitem fdf "Net_Cashflow" c))%res.

(** Step 7: [combined], as the list of records of the response. *)
Definition combine_with_history (df forecast_df : DataFrame)
  : res (list record) :=
  (col <~ getitem frame_values df "Month";;
   let df_display := setitem df "Month" (map dt_strftime col) in
   combined <~ concat df_display forecast_df;;
   let combined :=
     mkDF (columns combined) (map (map replace_nonfinite) (rows combined)) in
   ok (to_dict_records (dropna_all combined)))%res.

(** Steps 5 to 8, on the cleaned history. *)
Definition forecast_clean (df : DataFrame) : M response :=
  (inflow_series <- lift (series_of df "Inflow");;
   outflow_series <- lift (series_of df "Outflow");;
   inflow_forecast <- safe_forecast inflow_series "Inflow";;
   outflow_forecast <- safe_forecast outflow_series "Outflow";;
   last_date <- lift (last_month df);;
   forecast_df <- lift (build_forecast_df last_date
                          inflow_forecast outflow_forecast);;
   records <- lift (combine_with_history df forecast_df);;
   ret (JsonSuccess (len df) records))%M.

(** The body of the handler's [try]. *)
Definition forecast_body (req : request) : M response :=
  match req with
  | None => ret (JsonError 400 "No file uploaded")
  | Some file =>
      (* a FileStorage without a file name is falsy *)
      if String.eqb (filename file) EmptyString
      then ret (JsonError 400 "No file uploaded")
      else
        match reader (filename file) with
        | None => ret (JsonError 400 "Unsupported file format")
        | Some k =>
            (df <- call (EvRead k)
                    (match k with
                     | Csv => read_csv E (stream file)
                     | Excel => read_excel E (stream file)
                     end);;
             df <- lift (clean df);;
             if (len df <? 3)%nat
             then ret (JsonError 400 "Not enough valid rows for forecasting")
             else forecast_clean df)%M
        end
  end.

(** The handler: the response and the external calls made for it.  An
    exception that leaves the body is answered with status 500. *)
Definition forecast (req : request) : response * trace :=
  match forecast_body req [] with
  | (inr resp, t) => (resp, t)
  | (inl e, t) => (JsonError 500 (str e), t)
  end.

End Handler.

(** ** The column operations read row by row

    Every column the handler assigns is computed from columns of the same
    frame, so each assignment acts on one row at a time.  The definitions
    below say what each step does to a row; the lemmas further down show that
    the steps above compute exactly this. *)

(** The cell under [key], as [getitem] reads it. *)
Definition cell_of (cols : list string) (key : string) (r : list cell)
  : cell :=
  match row_get cols key r with
  | Some c => c
  | None => CNone
  end.

(** The label occurs exactly once. *)
Definition unique (key : string) (cols : list string) : bool :=
  match positions key cols 0 with
  | [_] => true
  | _ => false
  end.

(** [df[key] = g(row)] for an existing label. *)
Definition assign (cols : list string) (key : string)
  (g : list cell -> cell) (rs : list (list cell)) : list (list cell) :=
  map (fun r => set_row cols key (g r) r) rs.

(** The row filter of [dropna(subset=keys)]. *)
Definition complete (cols : list string) (keys : list string)
  (r : list cell) : bool :=
  forallb (fun k => match row_get cols k r with
                    | Some c => notna c
                    | None => false
                    end) keys.

(** The order of [sort_values(key)] on rows. *)
Definition by_key (cols : list string) (key : string) (r1 r2 : list cell)
  : bool :=
  key_leb (row_get cols key r1) (row_get cols key r2).

(** Step 3 on the rows of a frame with one [Month] column. *)
Definition parse_months_rows (cols : list string) (rs : list (list cell))
  : list (list cell) :=
  let rs1 :=
    assign cols "Month"
           (fun r => to_datetime fmt_y_b (cell_of cols "Month" r)) rs in
  let rs2 :=
    if forallb isna (map (cell_of cols "Month") rs1)
    then assign cols "Month"
                (fun r => to_datetime fmt_d_b_y (cell_of cols "Month" r)) rs1
    else rs1 in
  sort (by_key cols "Month") (filter (complete cols ["Month"%string]) rs2).

(** The row holds a Timestamp under [Month]. *)
Definition dated (cols : list string) (r : list cell) : Prop :=
  exists d, row_get cols "Month" r = Some (CDate d).

(** The Timestamp of a row (any date when there is none). *)
Definition month_of (cols : list string) (r : list cell) : date :=
  match row_get cols "Month" r with
  | Some (CDate d) => d
  | _ => mkDate 1900 1 1 (* no Timestamp: never so after cleaning *)
  end.

(** Step 4 on the rows of a frame with one [Inflow] and one [Outflow]
    column: the coercions, the sum, the filter. *)
Definition numeric_row (E : External) (cols : list string) (r : list cell)
  : list cell :=
  let r1 := set_row cols "Inflow" (to_numeric E (cell_of cols "Inflow" r)) r in
  set_row cols "Outflow" (to_numeric E (cell_of cols "Outflow" r1)) r1.

Definition net_of (cols : list string) (r : list cell) : cell :=
  CNum (to_float (cell_of cols "Inflow" r)
        + to_float (cell_of cols "Outflow" r)).

Definition with_net (cols : list string) (r : list cell) : list cell :=
  if has_column "Net_Cashflow" cols
  then set_row cols "Net_Cashflow" (net_of cols r) r
  else r ++ [net_of cols r].

Definition net_columns (cols : list string) : list string :=
  if has_column "Net_Cashflow" cols then cols
  else cols ++ ["Net_Cashflow"%string].

Definition convert_numerics_frame (E : External) (cols : list string)
  (rs : list (list cell)) : DataFrame :=
  mkDF (net_columns cols)
       (filter (complete (net_columns cols) ["Inflow"; "Outflow"]%string)
               (map (fun r => with_net cols (numeric_row E cols r)) rs)).

(** The dates of the cleaned history, in row order. *)
Definition history_dates (df : DataFrame) : list date :=
  map (month_of (columns df)) (rows df).

(** The frame [forecast_df] once the aliases of step 7 are in place. *)
Definition forecast_columns : list string :=
  ["Month"; "Inflow_Forecast"; "Outflow_Forecast"; "Net_Cashflow_Forecast";
   "Inflow"; "Outflow"; "Net_Cashflow"]%string.

Definition forecast_row (d : date) (x y : float) : list cell :=
  let a := np_round2 x in
  let b := np_round2 y in
  [CStr (strftime_b_Y d); CNum a; CNum b; CNum (a + b);
   CNum a; CNum b; CNum (a + b)].

Definition forecast_rows (idx : list date) (fi fo : list float)
  : list (list cell) :=
  map (fun dxy => forecast_row (fst dxy) (fst (snd dxy)) (snd (snd dxy)))
      (combine idx (combine fi fo)).

(** The records of the response.  [combined_columns] are the keys of every
    record, [to_record] is the record of one row of either frame, and
    [display_row] is a row of [df_display]. *)
Definition combined_columns (cols : list string) : list string :=
  cols ++ filter (fun k => negb (has_column k cols)) forecast_columns.

Definition out_cell (cols : list string) (r : list cell) (k : string)
  : cell :=
  replace_nonfinite (match row_get cols k r with
                     | Some c => c
                     | None => CNum nan
                     end).

Definition to_record (cols new_cols : list string) (r : list cell) : record :=
  map (fun k => (k, out_cell cols r k)) new_cols.

Definition display_row (cols : list string) (r : list cell) : list cell :=
  set_row cols "Month" (dt_strftime (cell_of cols "Month" r)) r.

(** [rec[key]] *)
Definition record_get (key : string) (rec : record) : option cell :=
  match find (fun kv => String.eqb key (fst kv)) rec with
  | Some kv => Some (snd kv)
  | None => None
  end.

(** The two segments of the response for a cleaned history [df] whose last
    month is [d] and whose forecasts are [fi] and [fo]. *)
Definition history_records (df : DataFrame) : list record :=
  map (fun r => to_record (columns df) (combined_columns (columns df))
                          (display_row (columns df) r))
      (rows df).

Definition forecast_records (df : DataFrame) (d : date) (fi fo : list float)
  : list record :=
  map (to_record forecast_columns (combined_columns (columns df)))
      (forecast_rows (date_range_MS (MonthBegin1 d) 12) fi fo).

(** The display string of a month, as a record holds it. *)
Definition shown (d : date) : option cell := Some (CStr (strftime_b_Y d)).

(** The default of [last] and [nth] on dates; never reached on the
    non-empty lists of a successful response. *)
Definition epoch : date := mkDate 1900 1 1.






(** The row holds numbers under [Inflow] and [Outflow], neither of them NaN,
    and their float sum under [Net_Cashflow]. *)
Definition net_is_sum (cols : list string) (r : list cell) : Prop :=
  exists i o,
    row_get cols "Inflow" r = Some (CNum i)
    /\ row_get cols "Outflow" r = Some (CNum o)
    /\ row_get cols "Net_Cashflow" r = Some (CNum (i + o))
    /\ PrimFloat.is_nan i = false
    /\ PrimFloat.is_nan o = false.

(** Two rows that differ at most under the headers [Net_Cashflow]. *)
Fixpoint row_agree (cols : list string) (r1 r2 : list cell) : Prop :=
  match cols, r1, r2 with
  | k :: cols', c1 :: r1', c2 :: r2' =>
      (String.eqb "Net_Cashflow" k = true \/ c1 = c2)
      /\ row_agree cols' r1' r2'
  | _, _, _ => r1 = r2
  end.

(** The table [df] with other net cash-flow values supplied: in each row the
    cell of every column whose normalised header is [Net_Cashflow] is replaced
    by the value the list [vals] has for that row. *)
Definition supply_net (df : DataFrame) (vals : list cell) : DataFrame :=
  mkDF (columns df)
       (map (fun rv => set_row (columns (standardize_columns df))
                               "Net_Cashflow" (snd rv) (fst rv))
            (combine (rows df) vals)).

(** ** Sample tables and test doubles for the external capabilities *)

Module Fixtures.

Local Open Scope string_scope.

Definition jan24 : date := mkDate 2024 1 1.
Definition feb24 : date := mkDate 2024 2 1.
Definition mar24 : date := mkDate 2024 3 1.

(** Three months in the primary format, out of order, with a supplied net
    column that disagrees with inflow + outflow. *)
Definition history_df : DataFrame :=
  mkDF ["Months"; "Cash Inflow"; "Cash Outflow"; "Net Cash Flow"]
       [[CStr "24-Mar"; CNum 1050; CNum (-420); CNum 7];
        [CStr "24-Jan"; CNum 1000; CNum (-400); CNum 7];
        [CStr "24-Feb"; CNum 1100; CNum (-450); CNum 7]].

(** The same months written day-month-year. *)
Definition dmy_df : DataFrame :=
  mkDF ["Month"; "Inflow"; "Outflow"]
       [[CStr "01-Jan-24"; CNum 1000; CNum (-400)];
        [CStr "01-Feb-24"; CNum 1100; CNum (-450)];
        [CStr "01-Mar-24"; CNum 1050; CNum (-420)]].

(** Four rows of which two survive the cleaning. *)
Definition short_df : DataFrame :=
  mkDF ["Month"; "Inflow"; "Outflow"]
       [[CStr "24-Jan"; CNum 1000; CNum (-400)];
        [CStr "24-Feb"; CStr "n/a"; CNum (-450)];
        [CStr "March"; CNum 1050; CNum (-420)];
        [CStr "24-Apr"; CNum 990; CNum (-410)]].

(** The first table with another net column: one value right, one wrong, one
    not a number. *)
Definition history_other_net : DataFrame :=
  supply_net history_df [CNum 630; CNum 0; CStr "n/a"].

(** 0.004 (the nearest float) in and 0.004 out, three months running. *)
Definition small : float := 0x1.0624dd2f1a9fcp-8.

Definition cents_df : DataFrame :=
  mkDF ["Month"; "Inflow"; "Outflow"]
       [[CStr "24-Jan"; CNum small; CNum small];
        [CStr "24-Feb"; CNum small; CNum small];
        [CStr "24-Mar"; CNum small; CNum small]].


(** A reader that knows five uploads by their content. *)
Definition reader_double (content : string) : res DataFrame :=
  if String.eqb content "history" then ok history_df
  else if String.eqb content "history, other net" then ok history_other_net
  else if String.eqb content "cents" then ok cents_df
  else if String.eqb content "dmy" then ok dmy_df
  else if String.eqb content "short" then ok short_df
  else raise (LibraryError "No columns to parse from file").

(** A forecast that repeats the last observation. *)
Definition naive (s : Series) (n : nat) : res (list float) :=
  ok (repeat (snd (last s (CNone, nan))) n).

Definition failing (msg : string) (s : Series) (n : nat)
  : res (list float) :=
  raise (LibraryError msg).

(** Both models fit. *)
Definition E_fit : External :=
  mkExternal reader_double reader_double (fun _ => None) naive naive.

(** The trend model fails, the simple model fits. *)
Definition E_fallback : External :=
  mkExternal reader_double reader_double (fun _ => None)
             (failing "trend fit did not converge") naive.

(** Neither model fits. *)
Definition E_broken : External :=
  mkExternal reader_double reader_double (fun _ => None)
             (failing "trend fit did not converge")
             (failing "simple fit did not converge").

Definition upload (name content : string) : request :=
  Some (mkFile name content).

(** The records of a response (none for an error). *)
Definition records_of (r : response) : list record :=
  match r with
  | JsonSuccess _ recs => recs
  | JsonError _ _ => []
  end.

(** The scenario of the specification: three months, forecast from April. *)
Definition q1 : request := upload "q1.csv" "history".
Definition q1_records : list record := records_of (fst (forecast E_fit q1)).
Definition q1_trace : trace := snd (forecast E_fit q1).


End Fixtures.

(** ** Notions for the further properties *)

(** A cell that JSON can carry: no NaN and no infinity. *)
Definition finite_cell (c : cell) : bool :=
  match c with
  | CNum x => negb (PrimFloat.is_nan x || PrimFloat.is_infinity x)
  | _ => true
  end.

(** The keys of a record, in order. *)
Definition keys (rec : record) : list string := map fst rec.

(** The four headers the handler reads or writes. *)
Definition canonical (k : string) : bool :=
  String.eqb k "Month" || String.eqb k "Inflow"
  || String.eqb k "Outflow" || String.eqb k "Net_Cashflow".




(** The month a label names (0 when it names none), and a test that a list
    of numbers has no repetition. *)
Definition label_month (c : option cell) : Z :=
  match c with
  | Some (CStr s) =>
      match index_ci (substring 0 3 s) month_abbr 1 with
      | Some m => m
      | None => 0
      end
  | _ => 0
  end.

Fixpoint distinct_b (l : list Z) : bool :=
  match l with
  | [] => true
  | x :: l' => negb (existsb (Z.eqb x) l') && distinct_b l'
  end.

(** ** More sample tables *)

Module Tables.

Local Open Scope string_scope.

(** No month column, under any synonym. *)
Definition no_month_df : DataFrame :=
  mkDF ["Period"; "Inflow"; "Outflow"]
       [[CStr "24-Jan"; CNum 1000; CNum (-400)]].

(** No inflow column. *)
Definition no_inflow_df : DataFrame :=
  mkDF ["Months"; "Receipts"; "Cash Outflow"]
       [[CStr "24-Jan"; CNum 1000; CNum (-400)]].

(** No outflow column. *)
Definition no_outflow_df : DataFrame :=
  mkDF ["Months"; "Cash Inflow"; "Payments"]
       [[CStr "24-Jan"; CNum 1000; CNum (-400)]].

(** Both month formats in one column, a native Timestamp, a blank, and a
    column the handler does not know. *)
Definition mixed_df : DataFrame :=
  mkDF ["Month"; "Inflow"; "Outflow"; "Note"]
       [[CStr "24-Mar"; CNum 1050; CNum (-420); CStr "c"];
        [CStr "15-Feb-24"; CNum 1100; CNum (-450); CStr "b"];
        [CDate (mkDate 2024 1 15); CNum 1000; CNum (-400); CStr "a"];
        [CNone; CNum 1; CNum 1; CNone];
        [CStr "24-Apr"; CNum 990; CNum (-410); CNum 7]].

(** Two good rows. *)
Definition pair_df : DataFrame :=
  mkDF ["Months"; "Cash Inflow"; "Cash Outflow"]
       [[CStr "24-Jan"; CNum 1000; CNum (-400)];
        [CStr "24-Feb"; CNum 1100; CNum (-450)]].

Definition reader_double (content : string) : res DataFrame :=
  if String.eqb content "pair" then ok pair_df
  else if String.eqb content "no month" then ok no_month_df
  else if String.eqb content "no inflow" then ok no_inflow_df
  else if String.eqb content "no outflow" then ok no_outflow_df
  else if String.eqb content "mixed" then ok mixed_df
  else Fixtures.reader_double content.

(** Both models fit; the tables above are known to the readers. *)
Definition E_fit : External :=
  mkExternal reader_double reader_double (fun _ => None)
             Fixtures.naive Fixtures.naive.

(** The trend model fails, the simple model fits. *)
Definition E_fallback : External :=
  mkExternal reader_double reader_double (fun _ => None)
             (Fixtures.failing "trend fit did not converge") Fixtures.naive.

Definition mixed : request := Fixtures.upload "mixed.csv" "mixed".
Definition mixed_records : list record :=
  Fixtures.records_of (fst (forecast E_fit mixed)).
Definition mixed_trace : trace := snd (forecast E_fit mixed).

End Tables.

(** * Properties *)

Unset Implicit Arguments.

Local Open Scope string_scope.
Local Open Scope list_scope.

(** ** The monad *)

Lemma forecast_of_body (E : External) (req : request) (resp : response)
  (t : trace) :
  forecast_body E req [] = (inr resp, t) -> forecast E req = (resp, t).
Proof. unfold forecast. intros ->. reflexivity. Qed.

Lemma forecast_of_raise (E : External) (req : request) (e : exn) (t : trace) :
  forecast_body E req [] = (inl e, t) ->
  forecast E req = (JsonError 500 (str e), t).
Proof. unfold forecast. intros ->. reflexivity. Qed.

Lemma bind_lift_ok {A B} (r : res A) (a : A) (k : A -> M B) (t : trace) :
  r = inr a -> bind (lift r) k t = k a t.
Proof. intros ->. reflexivity. Qed.

(** The handler on an upload that was read and cleaned. *)
Lemma forecast_body_read (E : External) (file : FileStorage) (k : file_kind)
  (df0 df : DataFrame) :
  String.eqb (filename file) EmptyString = false ->
  reader (filename file) = Some k ->
  match k with
  | Csv => read_csv E (stream file)
  | Excel => read_excel E (stream file)
  end = inr df0 ->
  clean E df0 = inr df ->
  forecast_body E (Some file) [] =
    if (len df <? 3)%nat
    then (inr (JsonError 400 "Not enough valid rows for forecasting"),
          [EvRead k])
    else forecast_clean E df [EvRead k].
Proof.
  intros Hname Hk Hread Hclean. unfold forecast_body.
  rewrite Hname, Hk. unfold bind at 1, call. rewrite Hread. cbn [app].
  rewrite (bind_lift_ok _ _ _ _ Hclean).
  destruct (len df <? 3)%nat; reflexivity.
Qed.

(** ** Scenarios *)

(** Three months in the primary format: three historical rows are kept and
    the forecast starts in April 2024. *)
Example scenario_three_months :
  fst (forecast Fixtures.E_fit Fixtures.q1)
  = JsonSuccess 3 Fixtures.q1_records
  /\ map (record_get "Month") Fixtures.q1_records
     = map (fun s => Some (CStr s))
           ["Jan-2024"; "Feb-2024"; "Mar-2024";
            "Apr-2024"; "May-2024"; "Jun-2024"; "Jul-2024"; "Aug-2024";
            "Sep-2024"; "Oct-2024"; "Nov-2024"; "Dec-2024";
            "Jan-2025"; "Feb-2025"; "Mar-2025"]
  /\ map (record_get "Net_Cashflow") (firstn 3 Fixtures.q1_records)
     = [Some (CNum 600); Some (CNum 650); Some (CNum 630)].
Proof. vm_compute. repeat split. Qed.

(** The trend model fails for both series and the simple model answers. *)
Example scenario_fallback :
  forecast Fixtures.E_fallback Fixtures.q1
  = (JsonSuccess 3 Fixtures.q1_records,
     [EvRead Csv; EvFit Holt "Inflow"; EvFit Simple "Inflow";
      EvFit Holt "Outflow"; EvFit Simple "Outflow"]).
Proof. vm_compute. reflexivity. Qed.

(** A reader that raises is answered with status 500 and its message. *)
Example scenario_unreadable :
  forecast Fixtures.E_fit (Fixtures.upload "book.xlsx" "not a workbook")
  = (JsonError 500 "No columns to parse from file", [EvRead Excel]).
Proof. reflexivity. Qed.

(** ** Requests refused before anything is read *)

(** C4: a request without a file (no part named [file], or a part without a
    file name) is answered 400 "No file uploaded", and a file whose name ends
    in none of [.csv], [.xlsx], [.xls] is answered 400 "Unsupported file
    format"; in both cases the trace is empty: no reader was called. *)
Theorem input_errors_before_parsing (E : External) :
  forecast E None = (JsonError 400 "No file uploaded", [])
  /\ (forall file,
        String.eqb (filename file) EmptyString = true ->
        forecast E (Some file) = (JsonError 400 "No file uploaded", []))
  /\ (forall file,
        String.eqb (filename file) EmptyString = false ->
        endswith (filename file) ".csv" = false ->
        endswith (filename file) ".xlsx" = false ->
        endswith (filename file) ".xls" = false ->
        forecast E (Some file)
        = (JsonError 400 "Unsupported file format", [])).
Proof.
  split; [reflexivity | split].
  - intros file Hname. unfold forecast, forecast_body.
    rewrite Hname. reflexivity.
  - intros file Hname Hcsv Hxlsx Hxls. unfold forecast, forecast_body, reader.
    rewrite Hname, Hcsv, Hxlsx, Hxls. reflexivity.
Qed.

Lemma input_errors_before_parsing_witness :
  forecast Fixtures.E_fit (Fixtures.upload "report.txt" "history")
  = (JsonError 400 "Unsupported file format", []).
Proof.
  apply (proj2 (proj2 (input_errors_before_parsing Fixtures.E_fit)));
    reflexivity.
Defined.

(** ** The validity gate *)

(** C3: when the upload is read and its cleaning (date parsing, numeric
    coercion, both row filters) leaves fewer than 3 rows, the response is
    400 "Not enough valid rows for forecasting" and the trace holds the read
    alone: no model was fitted. *)
Theorem too_few_rows_rejected (E : External) (file : FileStorage)
  (k : file_kind) (df0 df : DataFrame) :
  String.eqb (filename file) EmptyString = false ->
  reader (filename file) = Some k ->
  match k with
  | Csv => read_csv E (stream file)
  | Excel => read_excel E (stream file)
  end = inr df0 ->
  clean E df0 = inr df ->
  (len df < 3)%nat ->
  forecast E (Some file)
  = (JsonError 400 "Not enough valid rows for forecasting", [EvRead k]).
Proof.
  intros Hname Hk Hread Hclean Hlen.
  apply forecast_of_body.
  rewrite (@forecast_body_read E file k df0 df Hname Hk Hread Hclean).
  apply Nat.ltb_lt in Hlen. rewrite Hlen. reflexivity.
Qed.

Lemma too_few_rows_rejected_witness :
  forecast Fixtures.E_fit (Fixtures.upload "q1.csv" "short")
  = (JsonError 400 "Not enough valid rows for forecasting", [EvRead Csv]).
Proof.
  apply (@too_few_rows_rejected Fixtures.E_fit (mkFile "q1.csv" "short") Csv
           Fixtures.short_df
           (mkDF ["Month"; "Inflow"; "Outflow"; "Net_Cashflow"]
                 [[CDate Fixtures.jan24; CNum 1000; CNum (-400); CNum 600];
                  [CDate (mkDate 2024 4 1); CNum 990; CNum (-410);
                   CNum 580]]));
    try reflexivity.
  vm_compute. lia.
Defined.

(** ** The forecast adapter *)


Lemma safe_forecast_secondary (E : External) (series : Series)
  (label : string) (t : trace) (e : exn) :
  ExponentialSmoothing E series 12 = inl e ->
  safe_forecast E series label t
  = (SimpleExpSmoothing E series 12,
     t ++ [EvFit Holt label; EvFit Simple label]).
Proof.
  unfold safe_forecast, try_except, call. intros ->.
  rewrite <- app_assoc. reflexivity.
Qed.

(** C9: for either series, when the additive-trend model raises, the simple
    model is fitted on the same series and asked for 12 steps, and its
    outcome is the adapter's outcome; when the simple model raises too (for
    the inflow series, or for the outflow series once the inflow forecast
    exists), the request is answered with status 500 and the text of that
    second exception. *)
Theorem fallback_then_surface (E : External) :
  (forall series label t e,
      ExponentialSmoothing E series 12 = inl e ->
      safe_forecast E series label t
      = (SimpleExpSmoothing E series 12,
         t ++ [EvFit Holt label; EvFit Simple label]))
  /\ (forall file k df0 df s_in s_out e1 e2,
        String.eqb (filename file) EmptyString = false ->
        reader (filename file) = Some k ->
        match k with
        | Csv => read_csv E (stream file)
        | Excel => read_excel E (stream file)
        end = inr df0 ->
        clean E df0 = inr df ->
        (len df <? 3)%nat = false ->
        series_of df "Inflow" = inr s_in ->
        series_of df "Outflow" = inr s_out ->
        ExponentialSmoothing E s_in 12 = inl e1 ->
        SimpleExpSmoothing E s_in 12 = inl e2 ->
        forecast E (Some file)
        = (JsonError 500 (str e2),
           [EvRead k; EvFit Holt "Inflow"; EvFit Simple "Inflow"]))
  /\ (forall file k df0 df s_in s_out v t1 e1 e2,
        String.eqb (filename file) EmptyString = false ->
        reader (filename file) = Some k ->
        match k with
        | Csv => read_csv E (stream file)
        | Excel => read_excel E (stream file)
        end = inr df0 ->
        clean E df0 = inr df ->
        (len df <? 3)%nat = false ->
        series_of df "Inflow" = inr s_in ->
        series_of df "Outflow" = inr s_out ->
        safe_forecast E s_in "Inflow" [EvRead k] = (inr v, t1) ->
        ExponentialSmoothing E s_out 12 = inl e1 ->
        SimpleExpSmoothing E s_out 12 = inl e2 ->
        forecast E (Some file)
        = (JsonError 500 (str e2),
           t1 ++ [EvFit Holt "Outflow"; EvFit Simple "Outflow"])).
Proof.
  split; [| split].
  - intros series label t e He.
    exact (safe_forecast_secondary E series label t e He).
  - intros file k df0 df s_in s_out e1 e2
           Hname Hk Hread Hclean Hlen Hin Hout H1 H2.
    apply forecast_of_raise.
    rewrite (@forecast_body_read E file k df0 df Hname Hk Hread Hclean), Hlen.
    unfold forecast_clean.
    rewrite (bind_lift_ok _ _ _ _ Hin), (bind_lift_ok _ _ _ _ Hout).
    unfold bind at 1.
    rewrite (@safe_forecast_secondary E s_in "Inflow" [EvRead k] e1 H1), H2.
    reflexivity.
  - intros file k df0 df s_in s_out v t1 e1 e2
           Hname Hk Hread Hclean Hlen Hin Hout Hv H1 H2.
    apply forecast_of_raise.
    rewrite (@forecast_body_read E file k df0 df Hname Hk Hread Hclean), Hlen.
    unfold forecast_clean.
    rewrite (bind_lift_ok _ _ _ _ Hin), (bind_lift_ok _ _ _ _ Hout).
    unfold bind at 1. rewrite Hv.
    unfold bind at 1.
    rewrite (@safe_forecast_secondary E s_out "Outflow" t1 e1 H1), H2.
    reflexivity.
Qed.

Lemma fallback_then_surface_witness :
  forecast Fixtures.E_broken (Fixtures.upload "q1.csv" "history")
  = (JsonError 500 "simple fit did not converge",
     [EvRead Csv; EvFit Holt "Inflow"; EvFit Simple "Inflow"]).
Proof.
  apply (proj1 (proj2 (fallback_then_surface Fixtures.E_broken))
           (mkFile "q1.csv" "history") Csv Fixtures.history_df
           (mkDF ["Month"; "Inflow"; "Outflow"; "Net_Cashflow"]
                 [[CDate Fixtures.jan24; CNum 1000; CNum (-400); CNum 600];
                  [CDate Fixtures.feb24; CNum 1100; CNum (-450); CNum 650];
                  [CDate Fixtures.mar24; CNum 1050; CNum (-420); CNum 630]])
           [(CDate Fixtures.jan24, 1000%float);
            (CDate Fixtures.feb24, 1100%float);
            (CDate Fixtures.mar24, 1050%float)]
           [(CDate Fixtures.jan24, (-400)%float);
            (CDate Fixtures.feb24, (-450)%float);
            (CDate Fixtures.mar24, (-420)%float)]
           (LibraryError "trend fit did not converge")
           (LibraryError "simple fit did not converge"));
    reflexivity.
Defined.

(** ** Rows and columns *)

Lemma combine_map_r {A B} (g : A -> B) (l : list A) :
  combine l (map g l) = map (fun x => (x, g x)) l.
Proof. induction l as [| x l IH]; simpl; [reflexivity | now rewrite IH]. Qed.

Lemma combine_map_both {A B C} (f : A -> B) (g : A -> C) (l : list A) :
  combine (map f l) (map g l) = map (fun x => (f x, g x)) l.
Proof. induction l as [| x l IH]; simpl; [reflexivity | now rewrite IH]. Qed.

Lemma positions_lower (key : string) (cols : list string) (i0 i : nat) :
  In i (positions key cols i0) -> (i0 <= i)%nat.
Proof.
  revert i0. induction cols as [| k cols IH]; simpl; intros i0 Hin;
    [contradiction |].
  destruct (String.eqb key k).
  - destruct Hin as [<- | Hin]; [lia |]. apply IH in Hin. lia.
  - apply IH in Hin. lia.
Qed.

Lemma positions_nil_has (key : string) (cols : list string) (i0 : nat) :
  positions key cols i0 = [] <-> has_column key cols = false.
Proof.
  revert i0. induction cols as [| k cols IH]; simpl; intros i0;
    [tauto |].
  destruct (String.eqb key k); simpl; [split; discriminate | apply IH].
Qed.

Lemma unique_has (key : string) (cols : list string) :
  unique key cols = true -> has_column key cols = true.
Proof.
  unfold unique. intros H.
  destruct (has_column key cols) eqn:Hhas; [reflexivity |].
  apply (positions_nil_has key cols 0) in Hhas. now rewrite Hhas in H.
Qed.

(** The first position of a label holds the cell [row_get] finds. *)
Lemma positions_first (key : string) (cols : list string) (r : list cell)
  (i0 i : nat) (rest : list nat) :
  positions key cols i0 = i :: rest ->
  nth (i - i0) r CNone = cell_of cols key r.
Proof.
  revert r i0. induction cols as [| k cols IH]; simpl; intros r i0 Hpos;
    [discriminate |].
  unfold cell_of. simpl.
  destruct (String.eqb key k) eqn:Hk.
  - injection Hpos as <- _. rewrite Nat.sub_diag.
    destruct r; reflexivity.
  - assert (Hle : (S i0 <= i)%nat).
    { apply (positions_lower key cols). rewrite Hpos. now left. }
    destruct r as [| c r].
    + now destruct (i - i0)%nat.
    + replace (i - i0)%nat with (S (i - S i0)) by lia. simpl.
      now apply IH.
Qed.

Lemma getitem_unique (dup : exn) (cols : list string)
  (rs : list (list cell)) (key : string) :
  unique key cols = true ->
  getitem dup (mkDF cols rs) key = inr (map (cell_of cols key) rs).
Proof.
  unfold unique, getitem. simpl.
  destruct (positions key cols 0) as [| i [| j rest]] eqn:Hpos;
    try discriminate.
  intros _. unfold ok. f_equal. apply map_ext. intros r.
  rewrite <- (positions_first key cols r 0 i [] Hpos). now rewrite Nat.sub_0_r.
Qed.

Lemma getitem_ok_unique (dup : exn) (df : DataFrame) (key : string)
  (col : list cell) :
  getitem dup df key = inr col -> unique key (columns df) = true.
Proof.
  unfold unique, getitem.
  destruct (positions key (columns df) 0) as [| i [| j rest]];
    [discriminate | reflexivity | discriminate].
Qed.

Lemma getitem_not_unique (dup : exn) (df : DataFrame) (key : string) :
  unique key (columns df) = false ->
  exists e, getitem dup df key = inl e.
Proof.
  unfold unique, getitem.
  destruct (positions key (columns df) 0) as [| i [| j rest]];
    [eexists; reflexivity | discriminate | eexists; reflexivity].
Qed.

Lemma setitem_existing (cols : list string) (rs : list (list cell))
  (key : string) (g : list cell -> cell) :
  has_column key cols = true ->
  setitem (mkDF cols rs) key (map g rs) = mkDF cols (assign cols key g rs).
Proof.
  unfold setitem, assign. simpl. intros ->.
  now rewrite combine_map_r, map_map.
Qed.

Lemma setitem_new (cols : list string) (rs : list (list cell))
  (key : string) (g : list cell -> cell) :
  has_column key cols = false ->
  setitem (mkDF cols rs) key (map g rs)
  = mkDF (cols ++ [key]) (map (fun r => r ++ [g r]) rs).
Proof.
  unfold setitem. simpl. intros ->.
  now rewrite combine_map_r, map_map.
Qed.

Lemma row_get_set_row_same (cols : list string) (key : string) (v : cell)
  (r : list cell) :
  row_get cols key (set_row cols key v r)
  = match row_get cols key r with Some _ => Some v | None => None end.
Proof.
  revert r. induction cols as [| k cols IH]; intros [| c r]; simpl;
    try reflexivity.
  destruct (String.eqb key k); [reflexivity | apply IH].
Qed.

Lemma row_get_set_row_other (cols : list string) (key k : string) (v : cell)
  (r : list cell) :
  String.eqb key k = false ->
  row_get cols k (set_row cols key v r) = row_get cols k r.
Proof.
  intros Hne. revert r.
  induction cols as [| k' cols IH]; intros [| c r]; simpl; try reflexivity.
  destruct (String.eqb k k') eqn:Hk.
  - apply String.eqb_eq in Hk. subst k'. now rewrite Hne.
  - apply IH.
Qed.

Lemma length_set_row (cols : list string) (key : string) (v : cell)
  (r : list cell) :
  List.length (set_row cols key v r) = List.length r.
Proof.
  revert r. induction cols as [| k cols IH]; intros [| c r]; simpl;
    try reflexivity.
  now rewrite IH.
Qed.

Lemma row_get_app (cols cs : list string) (k : string) (r vs : list cell)
  (c : cell) :
  row_get cols k r = Some c -> row_get (cols ++ cs) k (r ++ vs) = Some c.
Proof.
  revert r. induction cols as [| k' cols IH]; intros [| c' r]; simpl;
    try discriminate.
  destruct (String.eqb k k'); [trivial | apply IH].
Qed.

Lemma row_get_app_new (cols : list string) (key : string) (r : list cell)
  (v : cell) :
  has_column key cols = false ->
  List.length r = List.length cols ->
  row_get (cols ++ [key]) key (r ++ [v]) = Some v.
Proof.
  revert r. induction cols as [| k cols IH]; intros [| c r]; simpl;
    try discriminate.
  - intros _ _. now rewrite String.eqb_refl.
  - intros Hhas Hlen. apply orb_false_iff in Hhas as [Hk Hhas].
    rewrite Hk. apply IH; [assumption | lia].
Qed.

(** ** Step 3, row by row *)

Lemma parse_months_unique (df : DataFrame) :
  unique "Month" (columns df) = true ->
  parse_months df
  = inr (mkDF (columns df) (parse_months_rows (columns df) (rows df))).
Proof.
  destruct df as [cols rs]. simpl. intros Hu.
  pose proof (unique_has _ _ Hu) as Hhas.
  unfold parse_months, rbind.
  rewrite !(getitem_unique _ cols rs "Month" Hu).
  rewrite map_map, (setitem_existing cols rs "Month" _ Hhas).
  rewrite (getitem_unique _ cols _ "Month" Hu).
  unfold parse_months_rows.
  set (rs1 := assign cols "Month" _ rs).
  assert (Hdrop : forall rs',
             dropna ["Month"] (mkDF cols rs')
             = inr (mkDF cols (filter (complete cols ["Month"]) rs'))).
  { intros rs'. unfold dropna. simpl. rewrite Hhas. reflexivity. }
  assert (Hsort : forall rs',
             sort_values "Month" (mkDF cols rs')
             = inr (mkDF cols (sort (by_key cols "Month") rs'))).
  { intros rs'. unfold sort_values. simpl. rewrite Hhas. reflexivity. }
  destruct (forallb isna (map (cell_of cols "Month") rs1)).
  - rewrite (getitem_unique _ cols rs1 "Month" Hu). unfold ok.
    rewrite map_map, (setitem_existing cols rs1 "Month" _ Hhas).
    rewrite Hdrop. apply Hsort.
  - unfold ok. rewrite Hdrop. apply Hsort.
Qed.

Lemma parse_months_ok_unique (df df' : DataFrame) :
  parse_months df = inr df' -> unique "Month" (columns df) = true.
Proof.
  intros H. destruct (unique "Month" (columns df)) eqn:Hu; [reflexivity |].
  destruct (getitem_not_unique frame_tolist df "Month" Hu) as [e He].
  unfold parse_months in H. rewrite He in H. discriminate.
Qed.

Lemma parse_months_inv (df df' : DataFrame) :
  parse_months df = inr df' ->
  unique "Month" (columns df) = true
  /\ df' = mkDF (columns df) (parse_months_rows (columns df) (rows df)).
Proof.
  intros H. pose proof (parse_months_ok_unique _ _ H) as Hu.
  split; [assumption |].
  rewrite (parse_months_unique df Hu) in H. now injection H.
Qed.

Lemma to_datetime_cases (fmt : list directive) (c : cell) :
  to_datetime fmt c = CNaT \/ exists d, to_datetime fmt c = CDate d.
Proof.
  destruct c as [s | x | d | |]; simpl; try (now left).
  - destruct (strptime fmt s) as [d |]; [right; now exists d | now left].
  - right. now exists d.
Qed.

Lemma in_insert {A} (le : A -> A -> bool) (x y : A) (l : list A) :
  In y (insert le x l) <-> y = x \/ In y l.
Proof.
  induction l as [| z l IH]; simpl.
  - intuition.
  - destruct (le x z); simpl; [intuition | rewrite IH; intuition].
Qed.

Lemma in_sort {A} (le : A -> A -> bool) (y : A) (l : list A) :
  In y (sort le l) <-> In y l.
Proof.
  induction l as [| x l IH]; simpl; [tauto |].
  rewrite in_insert, IH. intuition.
Qed.

(** A row that passes [dropna(subset=["Month"])] after an assignment of
    parsed values holds a Timestamp. *)
Lemma complete_assigned_dated (cols : list string) (fmt : list directive)
  (c : cell) (r : list cell) :
  complete cols ["Month"] (set_row cols "Month" (to_datetime fmt c) r) = true ->
  dated cols (set_row cols "Month" (to_datetime fmt c) r).
Proof.
  unfold complete, dated. simpl. rewrite row_get_set_row_same.
  destruct (row_get cols "Month" r); [| discriminate].
  destruct (to_datetime_cases fmt c) as [-> | [d ->]];
    [discriminate | intros _; now exists d].
Qed.

Lemma parse_months_rows_dated (cols : list string) (rs : list (list cell)) :
  Forall (dated cols) (parse_months_rows cols rs).
Proof.
  apply Forall_forall. intros r Hin. unfold parse_months_rows in Hin.
  apply in_sort in Hin. apply filter_In in Hin as [Hin Hc].
  destruct (forallb isna _); unfold assign in Hin;
    apply in_map_iff in Hin as [r0 [<- _]];
    now apply complete_assigned_dated in Hc.
Qed.

Lemma filter_none {A} (f : A -> bool) (l : list A) :
  (forall x, In x l -> f x = false) -> filter f l = [].
Proof.
  induction l as [| x l IH]; simpl; intros H; [reflexivity |].
  rewrite (H x (or_introl eq_refl)). apply IH. intros y Hy. apply H. now right.
Qed.

Lemma filter_all {A} (f : A -> bool) (l : list A) :
  (forall x, In x l -> f x = true) -> filter f l = l.
Proof.
  induction l as [| x l IH]; simpl; intros H; [reflexivity |].
  rewrite (H x (or_introl eq_refl)). f_equal. apply IH. intros y Hy.
  apply H. now right.
Qed.

(** When every month fails the primary format the second pass reads the
    column the first pass has already turned into NaT, and nothing is left. *)
Lemma primary_failure_drops_all (df : DataFrame) :
  unique "Month" (columns df) = true ->
  Forall (fun r => to_datetime fmt_y_b (cell_of (columns df) "Month" r) = CNaT)
         (rows df) ->
  parse_months df = inr (mkDF (columns df) []).
Proof.
  intros Hu Hall. rewrite (parse_months_unique df Hu). do 2 f_equal.
  destruct df as [cols rs]. simpl in *. unfold parse_months_rows.
  set (rs1 := assign cols "Month" _ rs).
  assert (Hnat : Forall (fun r => isna (cell_of cols "Month" r) = true
                                  /\ to_datetime fmt_d_b_y
                                       (cell_of cols "Month" r) = CNaT) rs1).
  { apply Forall_forall. intros r1 Hin. unfold rs1, assign in Hin.
    apply in_map_iff in Hin as [r [<- Hin]].
    rewrite Forall_forall in Hall. rewrite (Hall r Hin).
    unfold cell_of. rewrite row_get_set_row_same.
    destruct (row_get cols "Month" r); split; reflexivity. }
  assert (Hisna : forallb isna (map (cell_of cols "Month") rs1) = true).
  { apply forallb_forall. intros c Hc. apply in_map_iff in Hc as [r [<- Hr]].
    rewrite Forall_forall in Hnat. now apply Hnat. }
  rewrite Hisna.
  rewrite filter_none; [reflexivity |].
  intros r Hin. unfold assign in Hin.
  apply in_map_iff in Hin as [r1 [<- Hr1]].
  rewrite Forall_forall in Hnat. destruct (Hnat r1 Hr1) as [_ ->].
  unfold complete. simpl. rewrite row_get_set_row_same.
  now destruct (row_get cols "Month" r1).
Qed.

(** ** Step 4, row by row *)

Lemma has_column_app (k : string) (cols cs : list string) :
  has_column k (cols ++ cs) = has_column k cols || has_column k cs.
Proof. unfold has_column. apply existsb_app. Qed.

Lemma series_add_rows (f g : list cell -> cell) (rs : list (list cell)) :
  series_add (map f rs) (map g rs)
  = map (fun r => CNum (to_float (f r) + to_float (g r))) rs.
Proof. unfold series_add. now rewrite combine_map_both, map_map. Qed.

Lemma convert_numerics_unique (E : External) (cols : list string)
  (rs : list (list cell)) :
  unique "Inflow" cols = true ->
  unique "Outflow" cols = true ->
  convert_numerics E (mkDF cols rs) = inr (convert_numerics_frame E cols rs).
Proof.
  intros Hi Ho.
  pose proof (unique_has _ _ Hi) as Hhi.
  pose proof (unique_has _ _ Ho) as Hho.
  unfold convert_numerics, rbind.
  rewrite (getitem_unique _ cols rs "Inflow" Hi).
  rewrite map_map, (setitem_existing cols rs "Inflow" _ Hhi).
  rewrite (getitem_unique _ cols _ "Outflow" Ho).
  rewrite map_map, (setitem_existing cols _ "Outflow" _ Hho).
  rewrite (getitem_unique _ cols _ "Inflow" Hi).
  rewrite (getitem_unique _ cols _ "Outflow" Ho).
  rewrite series_add_rows.
  change (fun r : list cell =>
            CNum (to_float (cell_of cols "Inflow" r)
                  + to_float (cell_of cols "Outflow" r)))
    with (net_of cols).
  set (rs2 := assign cols "Outflow" _ _).
  assert (Hrs2 : rs2 = map (numeric_row E cols) rs).
  { unfold rs2, assign. rewrite map_map. reflexivity. }
  unfold convert_numerics_frame, net_columns, with_net.
  destruct (has_column "Net_Cashflow" cols) eqn:Hn.
  - rewrite (setitem_existing cols rs2 "Net_Cashflow" (net_of cols) Hn).
    unfold dropna. simpl. rewrite Hhi, Hho. simpl. unfold ok. do 2 f_equal.
    unfold assign. rewrite Hrs2, map_map. reflexivity.
  - rewrite (setitem_new cols rs2 "Net_Cashflow" (net_of cols) Hn).
    unfold dropna. simpl. rewrite !has_column_app, Hhi, Hho. simpl.
    unfold ok. do 2 f_equal. rewrite Hrs2, map_map. reflexivity.
Qed.

Lemma convert_numerics_inv (E : External) (df df' : DataFrame) :
  convert_numerics E df = inr df' ->
  unique "Inflow" (columns df) = true
  /\ unique "Outflow" (columns df) = true
  /\ df' = convert_numerics_frame E (columns df) (rows df).
Proof.
  destruct df as [cols rs]. simpl. intros H.
  destruct (unique "Inflow" cols) eqn:Hi.
  2:{ destruct (getitem_not_unique frame_to_numeric (mkDF cols rs) "Inflow" Hi)
        as [e He].
      unfold convert_numerics in H. rewrite He in H. discriminate. }
  destruct (unique "Outflow" cols) eqn:Ho.
  2:{ exfalso. unfold convert_numerics, rbind in H.
      rewrite (getitem_unique _ cols rs "Inflow" Hi) in H.
      rewrite map_map, (setitem_existing cols rs "Inflow" _ (unique_has _ _ Hi))
        in H.
      destruct (getitem_not_unique frame_to_numeric
                  (mkDF cols (assign cols "Inflow"
                     (fun x => to_numeric E (cell_of cols "Inflow" x)) rs))
                  "Outflow" Ho) as [e He].
      rewrite He in H. discriminate. }
  rewrite (convert_numerics_unique E cols rs Hi Ho) in H.
  injection H as <-. auto.
Qed.

Lemma clean_inv (E : External) (df0 df : DataFrame) :
  clean E df0 = inr df ->
  let cols := columns (standardize_columns df0) in
  unique "Month" cols = true
  /\ unique "Inflow" cols = true
  /\ unique "Outflow" cols = true
  /\ df = convert_numerics_frame E cols (parse_months_rows cols (rows df0)).
Proof.
  unfold clean, rbind. intros H.
  destruct (parse_months (standardize_columns df0)) as [e | dfm] eqn:Hp;
    [discriminate |].
  apply parse_months_inv in Hp as [Hm ->].
  apply convert_numerics_inv in H as (Hi & Ho & ->).
  simpl in *. auto.
Qed.

(** ** Order *)

Lemma date_leb_iff (a b : date) :
  date_leb a b = true <->
  (year a < year b
   \/ (year a = year b
       /\ (month a < month b \/ (month a = month b /\ day a <= day b))))%Z.
Proof.
  unfold date_leb.
  rewrite !orb_true_iff, !andb_true_iff, !orb_true_iff, !andb_true_iff.
  rewrite !Z.ltb_lt, !Z.eqb_eq, Z.leb_le. tauto.
Qed.

Lemma date_leb_total (a b : date) :
  date_leb a b = false -> date_leb b a = true.
Proof.
  intros H. apply date_leb_iff.
  assert (Hn : ~ date_leb a b = true) by (rewrite H; discriminate).
  rewrite date_leb_iff in Hn. lia.
Qed.

Lemma date_leb_trans (a b c : date) :
  date_leb a b = true -> date_leb b c = true -> date_leb a c = true.
Proof. rewrite !date_leb_iff. lia. Qed.

Lemma date_ltb_iff (a b : date) :
  date_ltb a b = true <->
  (year a < year b
   \/ (year a = year b
       /\ (month a < month b \/ (month a = month b /\ day a < day b))))%Z.
Proof.
  unfold date_ltb. rewrite negb_true_iff.
  split.
  - intros H. assert (Hn : ~ date_leb b a = true) by (rewrite H; discriminate).
    rewrite date_leb_iff in Hn. lia.
  - intros H. destruct (date_leb b a) eqn:Hba; [| reflexivity].
    apply date_leb_iff in Hba. lia.
Qed.

Lemma key_leb_total (a b : option cell) :
  key_leb a b = false -> key_leb b a = true.
Proof.
  destruct a as [[| | x | |] |], b as [[| | y | |] |]; simpl;
    try discriminate; try reflexivity.
  apply date_leb_total.
Qed.

Lemma key_leb_trans (a b c : option cell) :
  key_leb a b = true -> key_leb b c = true -> key_leb a c = true.
Proof.
  destruct a as [[| | x | |] |], b as [[| | y | |] |], c as [[| | z | |] |];
    simpl; try discriminate; try reflexivity.
  apply date_leb_trans.
Qed.

Section SortFacts.
Variable A : Type.
Variable le : A -> A -> bool.
Hypothesis le_total : forall x y, le x y = false -> le y x = true.
Hypothesis le_trans :
  forall x y z, le x y = true -> le y z = true -> le x z = true.

Let R (x y : A) : Prop := le x y = true.

Lemma insert_sorted (x : A) (l : list A) :
  StronglySorted R l -> StronglySorted R (insert le x l).
Proof.
  induction 1 as [| y l Hl IH Hy]; simpl.
  - constructor; constructor.
  - destruct (le x y) eqn:Hxy.
    + constructor; [now constructor |].
      constructor; [exact Hxy |].
      rewrite Forall_forall in *. intros z Hz.
      apply (le_trans x y z Hxy). now apply Hy.
    + constructor; [exact IH |].
      apply Forall_forall. intros z Hz. apply in_insert in Hz as [-> | Hz].
      * now apply le_total.
      * rewrite Forall_forall in Hy. now apply Hy.
Qed.

Lemma sort_sorted (l : list A) : StronglySorted R (sort le l).
Proof.
  induction l as [| x l IH]; simpl; [constructor | now apply insert_sorted].
Qed.
End SortFacts.

Lemma StronglySorted_filter {A} (R : A -> A -> Prop) (f : A -> bool)
  (l : list A) :
  StronglySorted R l -> StronglySorted R (filter f l).
Proof.
  induction 1 as [| x l Hl IH Hx]; simpl; [constructor |].
  destruct (f x); [| exact IH].
  constructor; [exact IH |].
  rewrite Forall_forall in *. intros y Hy. apply filter_In in Hy as [Hy _].
  now apply Hx.
Qed.

Lemma StronglySorted_map {A B} (R : A -> A -> Prop) (R' : B -> B -> Prop)
  (f : A -> B) (l : list A) :
  (forall x y, In x l -> In y l -> R x y -> R' (f x) (f y)) ->
  StronglySorted R l -> StronglySorted R' (map f l).
Proof.
  intros Hf Hs. induction Hs as [| x l Hl IH Hx]; simpl; [constructor |].
  constructor.
  - apply IH. intros a b Ha Hb. apply Hf; now right.
  - rewrite Forall_forall in *. intros y Hy.
    apply in_map_iff in Hy as [z [<- Hz]].
    apply Hf; [now left | now right | now apply Hx].
Qed.

(** ** The cleaned history *)

Lemma row_get_month_clean (E : External) (cols : list string)
  (r : list cell) (c : cell) :
  row_get cols "Month" r = Some c ->
  row_get (net_columns cols) "Month" (with_net cols (numeric_row E cols r))
  = Some c.
Proof.
  intros H.
  assert (Hnum : row_get cols "Month" (numeric_row E cols r) = Some c).
  { unfold numeric_row.
    rewrite !row_get_set_row_other by reflexivity. exact H. }
  unfold net_columns, with_net.
  destruct (has_column "Net_Cashflow" cols).
  - rewrite row_get_set_row_other by reflexivity. exact Hnum.
  - now apply row_get_app.
Qed.

Lemma month_of_clean (E : External) (cols : list string) (r : list cell) :
  dated cols r ->
  month_of (net_columns cols) (with_net cols (numeric_row E cols r))
  = month_of cols r.
Proof.
  intros [d Hd]. unfold month_of.
  now rewrite (row_get_month_clean E cols r (CDate d) Hd), Hd.
Qed.

Lemma clean_dated (E : External) (df0 df : DataFrame) :
  clean E df0 = inr df -> Forall (dated (columns df)) (rows df).
Proof.
  intros H. apply clean_inv in H as (_ & _ & _ & ->).
  set (cols := columns (standardize_columns df0)).
  unfold convert_numerics_frame. simpl.
  apply Forall_forall. intros r' Hin.
  apply filter_In in Hin as [Hin _].
  apply in_map_iff in Hin as [r [<- Hr]].
  pose proof (parse_months_rows_dated cols (rows df0)) as Hd.
  rewrite Forall_forall in Hd. destruct (Hd r Hr) as [d Hrd].
  exists d. now apply row_get_month_clean.
Qed.

Lemma by_key_dated (cols : list string) (r1 r2 : list cell) :
  dated cols r1 -> dated cols r2 ->
  by_key cols "Month" r1 r2 = date_leb (month_of cols r1) (month_of cols r2).
Proof.
  intros [d1 H1] [d2 H2]. unfold by_key, month_of. now rewrite H1, H2.
Qed.

Lemma clean_sorted (E : External) (df0 df : DataFrame) :
  clean E df0 = inr df ->
  StronglySorted (fun a b => date_leb a b = true) (history_dates df).
Proof.
  intros H. apply clean_inv in H as (_ & _ & _ & ->).
  set (cols := columns (standardize_columns df0)).
  unfold history_dates, convert_numerics_frame. simpl.
  pose proof (parse_months_rows_dated cols (rows df0)) as Hd.
  rewrite Forall_forall in Hd.
  apply (StronglySorted_map
           (fun r1 r2 => date_leb (month_of (net_columns cols) r1)
                                  (month_of (net_columns cols) r2) = true));
    [auto |].
  apply StronglySorted_filter.
  apply (StronglySorted_map
           (fun r1 r2 => by_key cols "Month" r1 r2 = true)).
  - intros r1 r2 H1 H2 Hle.
    rewrite !month_of_clean by auto. rewrite <- by_key_dated by auto.
    exact Hle.
  - unfold parse_months_rows. apply sort_sorted.
    + intros x y. apply key_leb_total.
    + intros x y z. apply key_leb_trans.
Qed.

(** ** The forecast frame *)

Lemma length_12 {A} (l : list A) :
  List.length l = 12%nat ->
  exists a b c d e f g h i j k m, l = [a; b; c; d; e; f; g; h; i; j; k; m].
Proof.
  intros H.
  do 12 (destruct l as [| ? l]; [discriminate |]).
  destruct l; [| discriminate]. repeat eexists.
Qed.

Lemma build_forecast_df_inv (last_date : cell) (fi fo : list float)
  (fdf : DataFrame) :
  build_forecast_df last_date fi fo = inr fdf ->
  exists d,
    last_date = CDate d
    /\ List.length fi = 12%nat
    /\ List.length fo = 12%nat
    /\ fdf = mkDF forecast_columns
                  (forecast_rows (date_range_MS (MonthBegin1 d) 12) fi fo).
Proof.
  unfold build_forecast_df, forecast_index.
  destruct last_date as [s | x | d | |]; try discriminate.
  intros H. exists d. unfold rbind, ok in H.
  set (idx := date_range_MS (MonthBegin1 d) 12) in *.
  assert (Hidx : List.length idx = 12%nat) by reflexivity.
  clearbody idx.
  unfold DataFrame_of_dict in H. cbn [forallb snd] in H.
  rewrite !length_map, Hidx, Nat.eqb_refl in H. cbn [andb] in H.
  destruct (Nat.eqb_spec (List.length fi) 12) as [Hfi |];
    [| discriminate].
  destruct (Nat.eqb_spec (List.length fo) 12) as [Hfo |];
    [| discriminate].
  repeat split; try assumption.
  destruct (length_12 idx Hidx)
    as (d1 & d2 & d3 & d4 & d5 & d6 & d7 & d8 & d9 & d10 & d11 & d12 & ->).
  destruct (length_12 fi Hfi)
    as (x1 & x2 & x3 & x4 & x5 & x6 & x7 & x8 & x9 & x10 & x11 & x12 & ->).
  destruct (length_12 fo Hfo)
    as (y1 & y2 & y3 & y4 & y5 & y6 & y7 & y8 & y9 & y10 & y11 & y12 & ->).
  cbv - [np_round2 strftime_b_Y PrimFloat.add] in H.
  injection H as <-. reflexivity.
Qed.

(** ** The combined records *)

Lemma has_column_In (k : string) (cols : list string) :
  has_column k cols = true <-> In k cols.
Proof.
  unfold has_column. rewrite existsb_exists. split.
  - intros [x [Hx Heq]]. apply String.eqb_eq in Heq. now subst.
  - intros H. exists k. split; [assumption | apply String.eqb_refl].
Qed.

Lemma to_record_reindex (cols new_cols : list string) (r : list cell) :
  combine new_cols (map replace_nonfinite (reindex_row cols new_cols r))
  = to_record cols new_cols r.
Proof.
  unfold reindex_row, to_record, out_cell.
  now rewrite map_map, combine_map_r.
Qed.

(** A row with a string under [Month] survives [dropna(how="all")]. *)
Lemma month_string_kept (cols new_cols : list string) (r : list cell)
  (s : string) :
  In "Month" new_cols ->
  row_get cols "Month" r = Some (CStr s) ->
  existsb notna (map replace_nonfinite (reindex_row cols new_cols r)) = true.
Proof.
  intros Hin Hget. apply existsb_exists. exists (CStr s).
  split; [| reflexivity].
  apply in_map_iff. exists (CStr s). split; [reflexivity |].
  unfold reindex_row. apply in_map_iff. exists "Month". now rewrite Hget.
Qed.

Lemma display_row_month (cols : list string) (r : list cell) :
  dated cols r ->
  row_get cols "Month" (display_row cols r)
  = Some (CStr (strftime_b_Y (month_of cols r))).
Proof.
  intros [d Hd]. unfold display_row, month_of, cell_of.
  rewrite row_get_set_row_same, Hd. reflexivity.
Qed.

Lemma forecast_row_month (idx : list date) (fi fo : list float)
  (r : list cell) :
  In r (forecast_rows idx fi fo) ->
  exists s, row_get forecast_columns "Month" r = Some (CStr s).
Proof.
  unfold forecast_rows. intros Hin.
  apply in_map_iff in Hin as [[d [x y]] [<- _]]. simpl. eauto.
Qed.

Lemma combine_with_history_inv (df : DataFrame) (idx : list date)
  (fi fo : list float) (recs : list record) :
  Forall (dated (columns df)) (rows df) ->
  combine_with_history df (mkDF forecast_columns (forecast_rows idx fi fo))
  = inr recs ->
  recs
  = map (fun r => to_record (columns df) (combined_columns (columns df))
                            (display_row (columns df) r)) (rows df)
    ++ map (to_record forecast_columns (combined_columns (columns df)))
           (forecast_rows idx fi fo).
Proof.
  destruct df as [cols rs]. simpl. intros Hdated H.
  unfold combine_with_history, rbind in H.
  destruct (getitem frame_values (mkDF cols rs) "Month") as [e | col] eqn:Hg;
    [discriminate |].
  pose proof (getitem_ok_unique _ _ _ _ Hg) as Hu. simpl in Hu.
  pose proof (unique_has _ _ Hu) as Hhas.
  rewrite (getitem_unique _ cols rs "Month" Hu) in Hg. injection Hg as <-.
  rewrite map_map, (setitem_existing cols rs "Month" _ Hhas) in H.
  unfold concat in H. cbn [columns rows] in H.
  fold (combined_columns cols) in H.
  destruct (nodup_b cols); [| discriminate].
  unfold ok in H. injection H as <-.
  assert (Hin : In "Month" (combined_columns cols)).
  { unfold combined_columns. apply in_or_app. left.
    now apply has_column_In. }
  unfold to_dict_records, dropna_all. cbn [columns rows].
  rewrite filter_all.
  - rewrite !map_app, !map_map. unfold assign. rewrite ?map_map.
    apply f_equal2; apply map_ext; intros r.
    + apply (to_record_reindex cols (combined_columns cols)
               (display_row cols r)).
    + apply to_record_reindex.
  - intros row Hrow. apply in_map_iff in Hrow as [row0 [<- Hrow0]].
    apply in_app_or in Hrow0 as [Hh | Hf].
    + apply in_map_iff in Hh as [r' [<- Hr']].
      unfold assign in Hr'. apply in_map_iff in Hr' as [r [<- Hr]].
      rewrite Forall_forall in Hdated.
      apply (month_string_kept cols _ _
               (strftime_b_Y (month_of cols r)) Hin).
      apply (display_row_month cols r (Hdated r Hr)).
    + apply in_map_iff in Hf as [r [<- Hr]].
      destruct (forecast_row_month idx fi fo r Hr) as [s Hs].
      now apply (month_string_kept forecast_columns _ _ s Hin).
Qed.

(** ** What a successful response is made of *)

Lemma forecast_success_inv (E : External) (req : request) (n : nat)
  (recs : list record) (t : trace) :
  forecast E req = (JsonSuccess n recs, t) ->
  exists file k df0 df s_in s_out fi fo t1 d,
    req = Some file
    /\ reader (filename file) = Some k
    /\ match k with
       | Csv => read_csv E (stream file)
       | Excel => read_excel E (stream file)
       end = inr df0
    /\ clean E df0 = inr df
    /\ n = len df
    /\ (3 <= n)%nat
    /\ series_of df "Inflow" = inr s_in
    /\ series_of df "Outflow" = inr s_out
    /\ safe_forecast E s_in "Inflow" [EvRead k] = (inr fi, t1)
    /\ safe_forecast E s_out "Outflow" t1 = (inr fo, t)
    /\ last_month df = inr (CDate d)
    /\ List.length fi = 12%nat
    /\ List.length fo = 12%nat
    /\ recs = history_records df ++ forecast_records df d fi fo.
Proof.
  intros H. unfold forecast in H.
  destruct (forecast_body E req []) as [[e | resp] t'] eqn:Hb;
    [discriminate |].
  injection H as -> ->.
  unfold forecast_body in Hb.
  destruct req as [file |]; [| discriminate].
  destruct (String.eqb (filename file) EmptyString); [discriminate |].
  destruct (reader (filename file)) as [k |] eqn:Hk; [| discriminate].
  unfold bind at 1, call in Hb.
  destruct (match k with
            | Csv => read_csv E (stream file)
            | Excel => read_excel E (stream file)
            end) as [e | df0] eqn:Hread; [discriminate |].
  cbn [app] in Hb. unfold bind at 1, lift in Hb.
  destruct (clean E df0) as [e | df] eqn:Hclean; [discriminate |].
  destruct (len df <? 3)%nat eqn:Hlen; [discriminate |].
  unfold forecast_clean in Hb.
  unfold bind at 1, lift in Hb.
  destruct (series_of df "Inflow") as [e | s_in] eqn:Hin; [discriminate |].
  unfold bind at 1, lift in Hb.
  destruct (series_of df "Outflow") as [e | s_out] eqn:Hout; [discriminate |].
  unfold bind at 1 in Hb.
  destruct (safe_forecast E s_in "Inflow" [EvRead k]) as [[e | fi] t1] eqn:Hfi;
    [discriminate |].
  unfold bind at 1 in Hb.
  destruct (safe_forecast E s_out "Outflow" t1) as [[e | fo] t2] eqn:Hfo;
    [discriminate |].
  unfold bind at 1, lift in Hb.
  destruct (last_month df) as [e | ld] eqn:Hlast; [discriminate |].
  unfold bind at 1, lift in Hb.
  destruct (build_forecast_df ld fi fo) as [e | fdf] eqn:Hfdf;
    [discriminate |].
  unfold bind at 1, lift in Hb.
  destruct (combine_with_history df fdf) as [e | recs'] eqn:Hcomb;
    [discriminate |].
  unfold ret in Hb. injection Hb as <- <- <-.
  apply build_forecast_df_inv in Hfdf as (d & -> & Hlfi & Hlfo & ->).
  apply (combine_with_history_inv df _ fi fo recs'
           (clean_dated E df0 df Hclean)) in Hcomb.
  apply Nat.ltb_ge in Hlen.
  exists file, k, df0, df, s_in, s_out, fi, fo, t1, d.
  repeat split; try assumption; try reflexivity.
Qed.

Lemma length_date_range (start : date) (n : nat) :
  List.length (date_range_MS start n) = n.
Proof.
  revert start. induction n as [| n IH]; intros start; simpl;
    [reflexivity | now rewrite IH].
Qed.

Lemma length_forecast_rows (idx : list date) (fi fo : list float) :
  List.length idx = 12%nat -> List.length fi = 12%nat ->
  List.length fo = 12%nat ->
  List.length (forecast_rows idx fi fo) = 12%nat.
Proof.
  intros Hi Hfi Hfo. unfold forecast_rows.
  rewrite length_map, !length_combine, Hi, Hfi, Hfo. reflexivity.
Qed.

Lemma length_history_records (df : DataFrame) :
  List.length (history_records df) = len df.
Proof. unfold history_records, len. apply length_map. Qed.

Lemma length_forecast_records (df : DataFrame) (d : date)
  (fi fo : list float) :
  List.length fi = 12%nat -> List.length fo = 12%nat ->
  List.length (forecast_records df d fi fo) = 12%nat.
Proof.
  intros Hfi Hfo. unfold forecast_records. rewrite length_map.
  apply length_forecast_rows; [apply length_date_range | assumption ..].
Qed.

Lemma skipn_history (df : DataFrame) (fc : list record) :
  skipn (len df) (history_records df ++ fc) = fc.
Proof.
  rewrite <- (length_history_records df), skipn_app, skipn_all, Nat.sub_diag.
  reflexivity.
Qed.

Lemma record_get_to_record (cols new_cols : list string) (r : list cell)
  (k : string) :
  In k new_cols ->
  record_get k (to_record cols new_cols r) = Some (out_cell cols r k).
Proof.
  unfold record_get, to_record.
  induction new_cols as [| k' new_cols IH]; simpl; [contradiction |].
  intros Hin. destruct (String.eqb_spec k k') as [<- | Hne]; [reflexivity |].
  destruct Hin as [-> | Hin]; [contradiction | now apply IH].
Qed.

Lemma In_combined_left (k : string) (cols : list string) :
  In k cols -> In k (combined_columns cols).
Proof. intros H. unfold combined_columns. apply in_or_app. now left. Qed.

Lemma In_combined_right (k : string) (cols : list string) :
  In k forecast_columns -> In k (combined_columns cols).
Proof.
  intros H. unfold combined_columns. apply in_or_app.
  destruct (has_column k cols) eqn:Hk.
  - left. now apply has_column_In.
  - right. apply filter_In. split; [assumption | now rewrite Hk].
Qed.

Lemma row_get_has (cols : list string) (k : string) (r : list cell)
  (c : cell) :
  row_get cols k r = Some c -> has_column k cols = true.
Proof.
  revert r. induction cols as [| k' cols IH]; intros [| c' r];
    cbn [row_get]; try discriminate.
  unfold has_column. cbn [existsb].
  destruct (String.eqb k k'); [reflexivity |].
  intros H. apply (IH r H).
Qed.

(** The months shown by the historical records are those of the cleaned
    rows, in row order. *)
Lemma history_records_months (df : DataFrame) :
  Forall (dated (columns df)) (rows df) ->
  map (record_get "Month") (history_records df)
  = map shown (history_dates df).
Proof.
  intros Hd. unfold history_records, history_dates. rewrite !map_map.
  apply map_ext_in. intros r Hr.
  rewrite Forall_forall in Hd. pose proof (Hd r Hr) as Hdr.
  rewrite record_get_to_record.
  - unfold out_cell. now rewrite (display_row_month _ _ Hdr).
  - apply In_combined_left. destruct Hdr as [d Hrd].
    apply has_column_In. now apply (row_get_has _ _ _ _ Hrd).
Qed.

(** The months shown by the forecast records are those of the index. *)
Lemma forecast_records_months (df : DataFrame) (d : date)
  (fi fo : list float) :
  List.length fi = 12%nat -> List.length fo = 12%nat ->
  map (record_get "Month") (forecast_records df d fi fo)
  = map shown (date_range_MS (MonthBegin1 d) 12).
Proof.
  intros Hfi Hfo. unfold forecast_records, forecast_rows.
  set (idx := date_range_MS (MonthBegin1 d) 12).
  assert (Hidx : List.length idx = 12%nat) by apply length_date_range.
  clearbody idx. rewrite !map_map.
  destruct (length_12 idx Hidx)
    as (d1 & d2 & d3 & d4 & d5 & d6 & d7 & d8 & d9 & d10 & d11 & d12 & ->).
  destruct (length_12 fi Hfi)
    as (x1 & x2 & x3 & x4 & x5 & x6 & x7 & x8 & x9 & x10 & x11 & x12 & ->).
  destruct (length_12 fo Hfo)
    as (y1 & y2 & y3 & y4 & y5 & y6 & y7 & y8 & y9 & y10 & y11 & y12 & ->).
  cbn [combine map fst snd].
  rewrite !record_get_to_record
    by (apply In_combined_right; simpl; tauto).
  reflexivity.
Qed.

(** ** The forecast horizon *)



Lemma MonthBegin1_month (d : date) :
  (1 <= month d <= 12)%Z -> (1 <= month (MonthBegin1 d) <= 12)%Z.
Proof.
  unfold MonthBegin1.
  destruct (Z.eqb_spec (month d) 12) as [H12 | Hne]; simpl; lia.
Qed.

Lemma MonthBegin1_later (d : date) : date_ltb d (MonthBegin1 d) = true.
Proof.
  apply date_ltb_iff. unfold MonthBegin1.
  destruct (Z.eqb_spec (month d) 12) as [H12 | Hne]; simpl; lia.
Qed.


Lemma date_range_lower (n : nat) (start x : date) :
  In x (date_range_MS start n) -> date_leb start x = true.
Proof.
  revert start. induction n as [| n IH]; intros start; cbn [date_range_MS];
    [contradiction |].
  intros [<- | Hin].
  - apply date_leb_iff. lia.
  - apply IH in Hin. pose proof (MonthBegin1_later start) as Hlt.
    apply date_ltb_iff in Hlt. apply date_leb_iff in Hin.
    apply date_leb_iff. lia.
Qed.

Lemma date_range_increasing (n : nat) (start : date) :
  StronglySorted (fun a b => date_ltb a b = true) (date_range_MS start n).
Proof.
  revert start. induction n as [| n IH]; intros start; cbn [date_range_MS];
    constructor; [apply IH |].
  apply Forall_forall. intros x Hin. apply date_range_lower in Hin.
  pose proof (MonthBegin1_later start) as Hlt.
  apply date_ltb_iff in Hlt. apply date_leb_iff in Hin.
  apply date_ltb_iff. lia.
Qed.

(** ** The last historical month *)

Lemma cell_of_dated (cols : list string) (r : list cell) :
  dated cols r -> cell_of cols "Month" r = CDate (month_of cols r).
Proof. intros [d Hd]. unfold cell_of, month_of. now rewrite Hd. Qed.

Lemma last_CDate (l : list date) (d : date) :
  l <> [] -> last (map CDate l) CNaT = CDate d -> last l epoch = d.
Proof.
  induction l as [| x l IH]; [contradiction |]. intros _.
  destruct l as [| y l].
  - simpl. now intros [= ->].
  - intros H. change (last (x :: y :: l) epoch) with (last (y :: l) epoch).
    apply IH; [discriminate | exact H].
Qed.

Lemma last_month_history (df : DataFrame) (d : date) :
  Forall (dated (columns df)) (rows df) ->
  last_month df = inr (CDate d) ->
  history_dates df <> [] /\ last (history_dates df) epoch = d.
Proof.
  intros Hd H. unfold last_month, rbind in H.
  destruct (getitem frame_values df "Month") as [e | col] eqn:Hg;
    [discriminate |].
  pose proof (getitem_ok_unique _ _ _ _ Hg) as Hu.
  destruct df as [cols rs]. simpl in *.
  rewrite (getitem_unique _ cols rs "Month" Hu) in Hg. injection Hg as <-.
  assert (Hcol : map (cell_of cols "Month") rs
                 = map CDate (history_dates (mkDF cols rs))).
  { unfold history_dates. simpl. rewrite map_map. apply map_ext_in.
    intros r Hr. rewrite Forall_forall in Hd. now apply cell_of_dated, Hd. }
  rewrite Hcol in H.
  assert (Hne : history_dates (mkDF cols rs) <> []).
  { intros Hnil. rewrite Hnil in H. discriminate. }
  split; [exact Hne |].
  destruct (map CDate (history_dates (mkDF cols rs))) eqn:Hm.
  - destruct (history_dates (mkDF cols rs)); [contradiction | discriminate].
  - rewrite <- Hm in H. unfold ok in H. injection H as H.
    now apply last_CDate.
Qed.

Lemma sorted_below_last (l : list date) (x : date) :
  StronglySorted (fun a b => date_leb a b = true) l ->
  In x l -> date_leb x (last l epoch) = true.
Proof.
  induction 1 as [| y l Hl IH Hy]; [contradiction |].
  intros [-> | Hin].
  - destruct l as [| z l]; [apply date_leb_iff; simpl; lia |].
    change (last (x :: z :: l) epoch) with (last (z :: l) epoch).
    rewrite Forall_forall in Hy. apply Hy.
    destruct (exists_last (l := z :: l)) as [l' [a ->]]; [discriminate |].
    rewrite last_last. apply in_or_app. right. now left.
  - destruct l as [| z l]; [contradiction |].
    change (last (y :: z :: l) epoch) with (last (z :: l) epoch).
    now apply IH.
Qed.

(** ** When the handler succeeds *)

Lemma positions_app (key : string) (cols cs : list string) (i : nat) :
  positions key (cols ++ cs) i
  = positions key cols i ++ positions key cs (i + List.length cols).
Proof.
  revert i. induction cols as [| k cols IH]; intros i; cbn [positions app].
  - now rewrite Nat.add_0_r.
  - rewrite IH. cbn [List.length].
    replace (S i + List.length cols)%nat with (i + S (List.length cols))%nat
      by lia.
    now destruct (String.eqb key k).
Qed.

Lemma unique_net_columns (key : string) (cols : list string) :
  String.eqb key "Net_Cashflow" = false ->
  unique key cols = true -> unique key (net_columns cols) = true.
Proof.
  intros Hk Hu. unfold net_columns.
  destruct (has_column "Net_Cashflow" cols); [exact Hu |].
  unfold unique in *. rewrite positions_app. cbn [positions].
  rewrite Hk, app_nil_r. exact Hu.
Qed.

Lemma clean_unique (E : External) (df0 df : DataFrame) :
  clean E df0 = inr df ->
  unique "Month" (columns df) = true
  /\ unique "Inflow" (columns df) = true
  /\ unique "Outflow" (columns df) = true.
Proof.
  intros H. apply clean_inv in H as (Hm & Hi & Ho & ->).
  unfold convert_numerics_frame. cbn [columns].
  repeat split; now apply unique_net_columns.
Qed.

Lemma series_of_unique (df : DataFrame) (key : string) :
  unique key (columns df) = true ->
  unique "Month" (columns df) = true ->
  series_of df key
  = inr (combine (map (cell_of (columns df) "Month") (rows df))
                 (map to_float (map (cell_of (columns df) key) (rows df)))).
Proof.
  destruct df as [cols rs]. cbn [columns rows]. intros Hk Hm.
  unfold series_of, rbind.
  now rewrite (getitem_unique _ cols rs key Hk),
    (getitem_unique _ cols rs "Month" Hm).
Qed.

Lemma last_CDate_exists (l : list date) :
  l <> [] -> last (map CDate l) CNaT = CDate (last l epoch).
Proof.
  induction l as [| x l IH]; [contradiction |]. intros _.
  destruct l as [| y l]; [reflexivity |].
  change (last (map CDate (x :: y :: l)) CNaT)
    with (last (map CDate (y :: l)) CNaT).
  change (last (x :: y :: l) epoch) with (last (y :: l) epoch).
  apply IH. discriminate.
Qed.

Lemma last_month_dated (df : DataFrame) :
  unique "Month" (columns df) = true ->
  Forall (dated (columns df)) (rows df) ->
  rows df <> [] ->
  last_month df = inr (CDate (last (history_dates df) epoch)).
Proof.
  destruct df as [cols rs]. cbn [columns rows]. intros Hu Hd Hne.
  unfold last_month, rbind. rewrite (getitem_unique _ cols rs "Month" Hu).
  assert (Hcol : map (cell_of cols "Month") rs
                 = map CDate (history_dates (mkDF cols rs))).
  { unfold history_dates. cbn [columns rows]. rewrite map_map.
    apply map_ext_in. intros r Hr. rewrite Forall_forall in Hd.
    now apply cell_of_dated, Hd. }
  rewrite Hcol.
  assert (Hne' : history_dates (mkDF cols rs) <> []).
  { unfold history_dates. cbn [columns rows]. now destruct rs. }
  rewrite (last_CDate_exists _ Hne').
  destruct (history_dates (mkDF cols rs)); [contradiction | reflexivity].
Qed.

Lemma build_forecast_df_ok (d : date) (fi fo : list float) :
  List.length fi = 12%nat -> List.length fo = 12%nat ->
  build_forecast_df (CDate d) fi fo
  = inr (mkDF forecast_columns
              (forecast_rows (date_range_MS (MonthBegin1 d) 12) fi fo)).
Proof.
  intros Hfi Hfo. unfold build_forecast_df, forecast_index, rbind, ok.
  set (idx := date_range_MS (MonthBegin1 d) 12).
  assert (Hidx : List.length idx = 12%nat) by apply length_date_range.
  clearbody idx.
  destruct (length_12 idx Hidx)
    as (d1 & d2 & d3 & d4 & d5 & d6 & d7 & d8 & d9 & d10 & d11 & d12 & ->).
  destruct (length_12 fi Hfi)
    as (x1 & x2 & x3 & x4 & x5 & x6 & x7 & x8 & x9 & x10 & x11 & x12 & ->).
  destruct (length_12 fo Hfo)
    as (y1 & y2 & y3 & y4 & y5 & y6 & y7 & y8 & y9 & y10 & y11 & y12 & ->).
  cbv - [np_round2 strftime_b_Y PrimFloat.add]. reflexivity.
Qed.

Lemma combine_with_history_ok (df : DataFrame) (idx : list date)
  (fi fo : list float) :
  unique "Month" (columns df) = true ->
  nodup_b (columns df) = true ->
  Forall (dated (columns df)) (rows df) ->
  combine_with_history df (mkDF forecast_columns (forecast_rows idx fi fo))
  = inr (map (fun r => to_record (columns df)
                                 (combined_columns (columns df))
                                 (display_row (columns df) r)) (rows df)
         ++ map (to_record forecast_columns (combined_columns (columns df)))
                (forecast_rows idx fi fo)).
Proof.
  intros Hu Hnd Hd.
  destruct (combine_with_history df
              (mkDF forecast_columns (forecast_rows idx fi fo)))
    as [e | recs] eqn:H.
  - exfalso. destruct df as [cols rs]. cbn [columns rows] in *.
    unfold combine_with_history, rbind in H.
    rewrite (getitem_unique _ cols rs "Month" Hu) in H.
    rewrite map_map, (setitem_existing cols rs "Month" _ (unique_has _ _ Hu))
      in H.
    unfold concat in H. cbn [columns rows] in H. rewrite Hnd in H.
    discriminate.
  - f_equal. now apply combine_with_history_inv.
Qed.

(** A cleaned history of at least 3 rows under distinct headers, and two
    forecasts of 12 values, are answered with success. *)
Lemma valid_input_succeeds (E : External) (file : FileStorage)
  (k : file_kind) (df0 df : DataFrame) :
  String.eqb (filename file) EmptyString = false ->
  reader (filename file) = Some k ->
  match k with
  | Csv => read_csv E (stream file)
  | Excel => read_excel E (stream file)
  end = inr df0 ->
  clean E df0 = inr df ->
  (3 <= len df)%nat ->
  nodup_b (columns df) = true ->
  exists s_in s_out,
    series_of df "Inflow" = inr s_in
    /\ series_of df "Outflow" = inr s_out
    /\ forall fi fo t1 t2,
         safe_forecast E s_in "Inflow" [EvRead k] = (inr fi, t1) ->
         safe_forecast E s_out "Outflow" t1 = (inr fo, t2) ->
         List.length fi = 12%nat ->
         List.length fo = 12%nat ->
         forecast E (Some file)
         = (JsonSuccess (len df)
              (history_records df
               ++ forecast_records df (last (history_dates df) epoch) fi fo),
            t2).
Proof.
  intros Hname Hk Hread Hclean Hlen Hnd.
  destruct (clean_unique E df0 df Hclean) as (Hm & Hi & Ho).
  pose proof (clean_dated E df0 df Hclean) as Hd.
  eexists. eexists.
  split; [apply (series_of_unique df "Inflow" Hi Hm) |].
  split; [apply (series_of_unique df "Outflow" Ho Hm) |].
  intros fi fo t1 t2 Hfi Hfo Hlfi Hlfo.
  apply forecast_of_body.
  rewrite (forecast_body_read E file k df0 df Hname Hk Hread Hclean).
  apply Nat.ltb_ge in Hlen. rewrite Hlen.
  unfold forecast_clean.
  rewrite (bind_lift_ok _ _ _ _ (series_of_unique df "Inflow" Hi Hm)).
  rewrite (bind_lift_ok _ _ _ _ (series_of_unique df "Outflow" Ho Hm)).
  unfold bind at 1. rewrite Hfi. unfold bind at 1. rewrite Hfo.
  assert (Hrows : rows df <> []).
  { apply Nat.ltb_ge in Hlen. unfold len in Hlen.
    destruct (rows df); [simpl in Hlen; lia | discriminate]. }
  rewrite (bind_lift_ok _ _ _ _ (last_month_dated df Hm Hd Hrows)).
  rewrite (bind_lift_ok _ _ _ _
             (build_forecast_df_ok _ fi fo Hlfi Hlfo)).
  rewrite (bind_lift_ok _ _ _ _
             (combine_with_history_ok df _ fi fo Hm Hnd Hd)).
  reflexivity.
Qed.

(** ** The successful response *)

(** C5: a successful response reports as [rows_received] the number of rows
    of the cleaned history (at least 3), and its [forecast] list has exactly
    [rows_received + 12] records.  Such responses exist for every valid
    input: a cleaned history of at least 3 rows under distinct headers, whose
    two series the adapter forecasts with 12 values each, is answered with
    success. *)
Theorem forecast_length (E : External) :
  (forall req n recs t,
      forecast E req = (JsonSuccess n recs, t) ->
      (3 <= n)%nat
      /\ List.length recs = (n + 12)%nat
      /\ exists file k df0 df,
           req = Some file
           /\ reader (filename file) = Some k
           /\ match k with
              | Csv => read_csv E (stream file)
              | Excel => read_excel E (stream file)
              end = inr df0
           /\ clean E df0 = inr df
           /\ n = len df)
  /\ (forall file k df0 df,
        String.eqb (filename file) EmptyString = false ->
        reader (filename file) = Some k ->
        match k with
        | Csv => read_csv E (stream file)
        | Excel => read_excel E (stream file)
        end = inr df0 ->
        clean E df0 = inr df ->
        (3 <= len df)%nat ->
        nodup_b (columns df) = true ->
        exists s_in s_out,
          series_of df "Inflow" = inr s_in
          /\ series_of df "Outflow" = inr s_out
          /\ forall fi fo t1 t2,
               safe_forecast E s_in "Inflow" [EvRead k] = (inr fi, t1) ->
               safe_forecast E s_out "Outflow" t1 = (inr fo, t2) ->
               List.length fi = 12%nat ->
               List.length fo = 12%nat ->
               exists recs,
                 forecast E (Some file) = (JsonSuccess (len df) recs, t2)
                 /\ List.length recs = (len df + 12)%nat).
Proof.
  split.
  - intros req n recs t H. apply forecast_success_inv in H
      as (file & k & df0 & df & s_in & s_out & fi & fo & t1 & d & Hreq & Hk
          & Hread & Hclean & Hn & Hge & _ & _ & _ & _ & _ & Hfi & Hfo & ->).
    split; [exact Hge | split].
    + rewrite length_app, length_history_records,
        (length_forecast_records df d fi fo Hfi Hfo). now rewrite Hn.
    + exists file, k, df0, df. auto.
  - intros file k df0 df Hname Hk Hread Hclean Hlen Hnd.
    destruct (valid_input_succeeds E file k df0 df Hname Hk Hread Hclean
                Hlen Hnd) as (s_in & s_out & Hin & Hout & Hsucc).
    exists s_in, s_out. split; [exact Hin |]. split; [exact Hout |].
    intros fi fo t1 t2 Hfi Hfo Hlfi Hlfo.
    eexists. split; [apply (Hsucc fi fo t1 t2 Hfi Hfo Hlfi Hlfo) |].
    rewrite length_app, length_history_records,
      (length_forecast_records df _ fi fo Hlfi Hlfo). reflexivity.
Qed.

Lemma forecast_length_witness :
  List.length Fixtures.q1_records = 15%nat.
Proof.
  apply (proj1 (forecast_length Fixtures.E_fit) Fixtures.q1 3%nat
           Fixtures.q1_records Fixtures.q1_trace).
  vm_compute. reflexivity.
Defined.



(** C7: a successful response is the historical records followed by the 12
    forecast records and nothing else; the historical records show the
    months of the cleaned rows in ascending order (equal months allowed),
    the forecast records show strictly ascending months, and every
    historical month is earlier than every forecast month. *)
Theorem history_precedes_forecast (E : External) (req : request) (n : nat)
  (recs : list record) (t : trace) :
  forecast E req = (JsonSuccess n recs, t) ->
  exists df0 df d fi fo,
    clean E df0 = inr df
    /\ n = len df
    /\ recs = history_records df ++ forecast_records df d fi fo
    /\ List.length (history_records df) = n
    /\ List.length (forecast_records df d fi fo) = 12%nat
    /\ map (record_get "Month") (history_records df)
       = map shown (history_dates df)
    /\ map (record_get "Month") (forecast_records df d fi fo)
       = map shown (date_range_MS (MonthBegin1 d) 12)
    /\ StronglySorted (fun a b => date_leb a b = true) (history_dates df)
    /\ StronglySorted (fun a b => date_ltb a b = true)
                      (date_range_MS (MonthBegin1 d) 12)
    /\ forall h f,
         In h (history_dates df) ->
         In f (date_range_MS (MonthBegin1 d) 12) ->
         date_ltb h f = true.
Proof.
  intros H. apply forecast_success_inv in H
    as (file & k & df0 & df & s_in & s_out & fi & fo & t1 & d & Hreq & Hk
        & Hread & Hclean & Hn & Hge & _ & _ & _ & _ & Hlast & Hfi & Hfo & ->).
  pose proof (clean_dated E df0 df Hclean) as Hd.
  pose proof (clean_sorted E df0 df Hclean) as Hs.
  destruct (last_month_history df d Hd Hlast) as [_ Hl].
  exists df0, df, d, fi, fo.
  split; [exact Hclean |]. split; [exact Hn |]. split; [reflexivity |].
  split; [now rewrite length_history_records |].
  split; [now apply length_forecast_records |].
  split; [now apply history_records_months |].
  split; [now apply forecast_records_months |].
  split; [exact Hs |].
  split; [apply date_range_increasing |].
  intros h f Hh Hf.
  pose proof (sorted_below_last (history_dates df) h Hs Hh) as Hhd.
  rewrite Hl in Hhd. apply date_range_lower in Hf.
  pose proof (MonthBegin1_later d) as Hlt.
  apply date_leb_iff in Hhd. apply date_leb_iff in Hf.
  apply date_ltb_iff in Hlt. apply date_ltb_iff. lia.
Qed.

Lemma history_precedes_forecast_witness :
  exists df0 df d fi fo,
    clean Fixtures.E_fit df0 = inr df
    /\ 3%nat = len df
    /\ Fixtures.q1_records
       = history_records df ++ forecast_records df d fi fo
    /\ List.length (history_records df) = 3%nat
    /\ List.length (forecast_records df d fi fo) = 12%nat
    /\ map (record_get "Month") (history_records df)
       = map shown (history_dates df)
    /\ map (record_get "Month") (forecast_records df d fi fo)
       = map shown (date_range_MS (MonthBegin1 d) 12)
    /\ StronglySorted (fun a b => date_leb a b = true) (history_dates df)
    /\ StronglySorted (fun a b => date_ltb a b = true)
                      (date_range_MS (MonthBegin1 d) 12)
    /\ forall h f,
         In h (history_dates df) ->
         In f (date_range_MS (MonthBegin1 d) 12) ->
         date_ltb h f = true.
Proof.
  apply (history_precedes_forecast Fixtures.E_fit Fixtures.q1 3
           Fixtures.q1_records Fixtures.q1_trace).
  vm_compute. reflexivity.
Defined.

(** ** The month fallback *)

(** C1: three rows whose months are written [DD-Mon-YY].  None of the three
    strings parses as [YY-Mon] and each parses as [DD-Mon-YY]; yet step 3
    keeps no row, and the request is refused for lack of rows.  The second
    [to_datetime] is applied to the column that the first one has already
    overwritten with NaT, not to the strings. *)
Theorem fallback_format_rows_lost :
  let months := ["01-Jan-24"; "01-Feb-24"; "01-Mar-24"] in
  map (strptime fmt_y_b) months = [None; None; None]
  /\ map (strptime fmt_d_b_y) months
     = [Some Fixtures.jan24; Some Fixtures.feb24; Some Fixtures.mar24]
  /\ parse_months Fixtures.dmy_df = inr (mkDF ["Month"; "Inflow"; "Outflow"] [])
  /\ forecast Fixtures.E_fit (Fixtures.upload "q1.csv" "dmy")
     = (JsonError 400 "Not enough valid rows for forecasting", [EvRead Csv]).
Proof. vm_compute. repeat split. Qed.

(** ** Rounding and the net forecast *)





(** ** Step 4: the net column and the rows kept *)

Lemma wf_Forall (df : DataFrame) :
  wf df <->
  Forall (fun r => List.length r = List.length (columns df)) (rows df).
Proof.
  unfold wf, rectangular. rewrite forallb_forall, Forall_forall.
  split; intros H r Hr; [apply Nat.eqb_eq | apply Nat.eqb_eq]; now apply H.
Qed.

Lemma wf_parse_months (df dfm : DataFrame) :
  wf df -> parse_months df = inr dfm -> wf dfm.
Proof.
  intros Hwf H. apply parse_months_inv in H as [_ ->].
  rewrite wf_Forall in *. simpl. rewrite Forall_forall in *. intros r Hin.
  unfold parse_months_rows in Hin.
  apply in_sort in Hin. apply filter_In in Hin as [Hin _].
  destruct (forallb isna _); unfold assign in Hin.
  - apply in_map_iff in Hin as [r1 [<- Hin]].
    apply in_map_iff in Hin as [r0 [<- Hin]].
    rewrite !length_set_row. now apply Hwf.
  - apply in_map_iff in Hin as [r0 [<- Hin]].
    rewrite length_set_row. now apply Hwf.
Qed.

Lemma wf_standardize (df : DataFrame) : wf df -> wf (standardize_columns df).
Proof.
  unfold wf, rectangular, standardize_columns. simpl. now rewrite length_map.
Qed.

Lemma row_get_some (cols : list string) (k : string) (r : list cell) :
  has_column k cols = true -> List.length r = List.length cols ->
  exists c, row_get cols k r = Some c.
Proof.
  revert r. induction cols as [| k' cols IH]; intros [| c r];
    cbn [row_get List.length]; try discriminate.
  unfold has_column. cbn [existsb]. intros Hhas Hlen.
  destruct (String.eqb k k'); [now exists c |].
  apply IH; [exact Hhas | lia].
Qed.

Lemma to_numeric_num (E : External) (c : cell) :
  exists x, to_numeric E c = CNum x.
Proof.
  destruct c as [s | x | d | |]; simpl; eauto.
  destruct (float_of_str E s); eauto.
Qed.


(** The three cash-flow cells of a row after step 4. *)
Lemma clean_row_fields (E : External) (cols : list string) (r : list cell) :
  unique "Inflow" cols = true -> unique "Outflow" cols = true ->
  List.length r = List.length cols ->
  exists i o,
    to_numeric E (cell_of cols "Inflow" r) = CNum i
    /\ to_numeric E (cell_of cols "Outflow" r) = CNum o
    /\ row_get (net_columns cols) "Inflow"
               (with_net cols (numeric_row E cols r)) = Some (CNum i)
    /\ row_get (net_columns cols) "Outflow"
               (with_net cols (numeric_row E cols r)) = Some (CNum o)
    /\ row_get (net_columns cols) "Net_Cashflow"
               (with_net cols (numeric_row E cols r)) = Some (CNum (i + o)).
Proof.
  intros Hi Ho Hlen.
  destruct (to_numeric_num E (cell_of cols "Inflow" r)) as [i Hti].
  destruct (to_numeric_num E (cell_of cols "Outflow" r)) as [o Hto].
  destruct (row_get_some cols "Inflow" r (unique_has _ _ Hi) Hlen) as [ci Hci].
  destruct (row_get_some cols "Outflow" r (unique_has _ _ Ho) Hlen)
    as [co Hco].
  exists i, o. split; [exact Hti |]. split; [exact Hto |].
  set (r2 := numeric_row E cols r).
  assert (Hlen2 : List.length r2 = List.length cols).
  { unfold r2, numeric_row. now rewrite !length_set_row. }
  assert (Hin2 : row_get cols "Inflow" r2 = Some (CNum i)).
  { unfold r2, numeric_row.
    rewrite row_get_set_row_other by reflexivity.
    now rewrite row_get_set_row_same, Hci, Hti. }
  assert (Hout2 : row_get cols "Outflow" r2 = Some (CNum o)).
  { unfold r2, numeric_row. rewrite row_get_set_row_same.
    rewrite row_get_set_row_other by reflexivity. rewrite Hco.
    unfold cell_of at 1. rewrite row_get_set_row_other by reflexivity.
    fold (cell_of cols "Outflow" r). now rewrite Hto. }
  assert (Hnet : net_of cols r2 = CNum (i + o)).
  { unfold net_of, cell_of. now rewrite Hin2, Hout2. }
  unfold net_columns, with_net. fold r2. rewrite Hnet.
  destruct (has_column "Net_Cashflow" cols) eqn:Hn.
  - rewrite !row_get_set_row_other by reflexivity.
    rewrite row_get_set_row_same.
    destruct (row_get_some cols "Net_Cashflow" r2 Hn Hlen2) as [cn ->].
    auto.
  - rewrite (row_get_app cols _ "Inflow" r2 _ _ Hin2).
    rewrite (row_get_app cols _ "Outflow" r2 _ _ Hout2).
    rewrite (row_get_app_new cols "Net_Cashflow" r2 _ Hn Hlen2). auto.
Qed.

(** Every row of the cleaned history carries the sum of its two flows. *)
Lemma cleaned_net_is_sum (E : External) (df0 df : DataFrame) :
  wf df0 -> clean E df0 = inr df ->
  Forall (net_is_sum (columns df)) (rows df).
Proof.
  intros Hwf Hclean.
  apply clean_inv in Hclean as (Hm & Hi & Ho & ->).
  set (cols := columns (standardize_columns df0)) in *.
  pose proof (wf_parse_months _ _ (wf_standardize _ Hwf)
                (parse_months_unique (standardize_columns df0) Hm)) as Hwfm.
  rewrite wf_Forall in Hwfm. simpl in Hwfm. rewrite Forall_forall in Hwfm.
  unfold convert_numerics_frame. cbn [rows columns].
  apply Forall_forall. intros r' Hin.
  apply filter_In in Hin as [Hin Hc].
  apply in_map_iff in Hin as [r [<- Hr]].
  destruct (clean_row_fields E cols r Hi Ho (Hwfm r Hr))
    as (i & o & _ & _ & Hgi & Hgo & Hgn).
  exists i, o. unfold complete in Hc. cbn [forallb] in Hc.
  rewrite Hgi, Hgo, andb_true_r in Hc.
  apply andb_true_iff in Hc as [Hni Hno].
  unfold notna in Hni, Hno. simpl in Hni, Hno.
  apply negb_true_iff in Hni. apply negb_true_iff in Hno. auto.
Qed.



(** ** The supplied net column *)

Lemma row_agree_refl (cols : list string) (r : list cell) :
  row_agree cols r r.
Proof.
  revert r. induction cols as [| k cols IH]; intros [| c r];
    cbn [row_agree set_row]; auto.
Qed.








Lemma Forall2_map_rel {A} (R : A -> A -> Prop) (f : A -> A)
  (l1 l2 : list A) :
  (forall x y, R x y -> R (f x) (f y)) ->
  Forall2 R l1 l2 -> Forall2 R (map f l1) (map f l2).
Proof.
  intros Hf. induction 1; simpl; constructor; auto.
Qed.















(** * Further properties of the handler *)

(** ** Failures that reach the outer handler *)

(** X1: when the reader raises, the request is answered with status 500 and
    the text of the exception, and nothing else was called. *)
Theorem reader_failure_surfaces (E : External) (file : FileStorage)
  (k : file_kind) (e : exn) :
  String.eqb (filename file) EmptyString = false ->
  reader (filename file) = Some k ->
  match k with
  | Csv => read_csv E (stream file)
  | Excel => read_excel E (stream file)
  end = inl e ->
  forecast E (Some file) = (JsonError 500 (str e), [EvRead k]).
Proof.
  intros Hname Hk Hread. apply forecast_of_raise.
  unfold forecast_body. rewrite Hname, Hk.
  unfold bind, call. rewrite Hread. reflexivity.
Qed.

Lemma reader_failure_surfaces_witness :
  forecast Fixtures.E_fit (Fixtures.upload "book.xls" "not a workbook")
  = (JsonError 500 "No columns to parse from file", [EvRead Excel]).
Proof.
  apply (reader_failure_surfaces Fixtures.E_fit
           (mkFile "book.xls" "not a workbook") Excel
           (LibraryError "No columns to parse from file"));
    reflexivity.
Defined.







(** X4: the handler answers in one of three ways: success; status 400 with
    one of its three fixed messages; or status 500.  No other status is ever
    sent. *)
Theorem response_taxonomy (E : External) (req : request) :
  match fst (forecast E req) with
  | JsonSuccess _ _ => True
  | JsonError status msg =>
      (status = 400%nat
       /\ (msg = "No file uploaded"
           \/ msg = "Unsupported file format"
           \/ msg = "Not enough valid rows for forecasting"))
      \/ status = 500%nat
  end.
Proof.
  unfold forecast.
  destruct (forecast_body E req []) as [[e | resp] t] eqn:Hb;
    cbn [fst]; [now right |].
  unfold forecast_body in Hb.
  destruct req as [file |];
    [| unfold ret in Hb; injection Hb as <- _; left; auto].
  destruct (String.eqb (filename file) EmptyString);
    [unfold ret in Hb; injection Hb as <- _; left; auto |].
  destruct (reader (filename file)) as [k |];
    [| unfold ret in Hb; injection Hb as <- _; left; auto].
  unfold bind at 1, call in Hb.
  destruct (match k with
            | Csv => read_csv E (stream file)
            | Excel => read_excel E (stream file)
            end) as [e | df0]; [discriminate |].
  unfold bind at 1, lift in Hb.
  destruct (clean E df0) as [e | df]; [discriminate |].
  destruct (len df <? 3)%nat;
    [unfold ret in Hb; injection Hb as <- _; left; auto |].
  unfold forecast_clean in Hb.
  unfold bind at 1, lift in Hb.
  destruct (series_of df "Inflow") as [e | s_in]; [discriminate |].
  unfold bind at 1, lift in Hb.
  destruct (series_of df "Outflow") as [e | s_out]; [discriminate |].
  unfold bind at 1 in Hb.
  destruct (safe_forecast E s_in "Inflow" _) as [[e | fi] t1];
    [discriminate |].
  unfold bind at 1 in Hb.
  destruct (safe_forecast E s_out "Outflow" t1) as [[e | fo] t2];
    [discriminate |].
  unfold bind at 1, lift in Hb.
  destruct (last_month df) as [e | ld]; [discriminate |].
  unfold bind at 1, lift in Hb.
  destruct (build_forecast_df ld fi fo) as [e | fdf]; [discriminate |].
  unfold bind at 1, lift in Hb.
  destruct (combine_with_history df fdf) as [e | recs]; [discriminate |].
  unfold ret in Hb. injection Hb as <- _. exact I.
Qed.

(** ** Header normalisation *)

Lemma rstrip_cons (c : ascii) (s : string) :
  rstrip (String c s)
  = match rstrip s with
    | EmptyString => if is_space c then EmptyString else String c EmptyString
    | t => String c t
    end.
Proof. reflexivity. Qed.

Lemma rstrip_idem (s : string) : rstrip (rstrip s) = rstrip s.
Proof.
  induction s as [| c s IH]; [reflexivity |].
  rewrite (rstrip_cons c s). destruct (rstrip s) as [| a u] eqn:Hr.
  - destruct (is_space c) eqn:Hc; [reflexivity |].
    rewrite rstrip_cons. cbn [rstrip]. now rewrite Hc.
  - rewrite rstrip_cons, IH. reflexivity.
Qed.

Lemma lstrip_head (s : string) :
  lstrip s = EmptyString
  \/ exists c r, lstrip s = String c r /\ is_space c = false.
Proof.
  induction s as [| c s IH]; [now left |].
  cbn [lstrip]. destruct (is_space c) eqn:Hc; [exact IH |].
  right. now exists c, s.
Qed.

Lemma rstrip_head (c : ascii) (r : string) :
  is_space c = false -> exists r', rstrip (String c r) = String c r'.
Proof.
  intros Hc. rewrite rstrip_cons. destruct (rstrip r) as [| a u].
  - rewrite Hc. now exists EmptyString.
  - now exists (String a u).
Qed.

Lemma strip_idem (s : string) : strip (strip s) = strip s.
Proof.
  unfold strip. destruct (lstrip_head s) as [-> | (c & r & -> & Hc)];
    [reflexivity |].
  destruct (rstrip_head c r Hc) as [r' Hr']. rewrite Hr'.
  cbn [lstrip]. rewrite Hc, <- Hr'. apply rstrip_idem.
Qed.

Lemma rename_cases (c : string) :
  rename c = c
  \/ rename c = "Month" \/ rename c = "Inflow"
  \/ rename c = "Outflow" \/ rename c = "Net_Cashflow".
Proof.
  unfold rename, rename_table. cbn [find fst snd].
  destruct (String.eqb "Months" c); [auto |].
  destruct (String.eqb "Cash Inflow" c); [auto |].
  destruct (String.eqb "Cash Outflow" c); [auto |].
  destruct (String.eqb "Net Cash Flow" c); auto.
Qed.

Lemma normalise_idem (c : string) :
  rename (strip (rename (strip c))) = rename (strip c).
Proof.
  destruct (rename_cases (strip c)) as [H | [H | [H | [H | H]]]];
    rewrite H; try reflexivity.
  now rewrite strip_idem.
Qed.

(** X5: normalising the headers is idempotent: a table whose headers were
    already stripped and renamed is left as it is, and the rows are never
    touched. *)
Theorem standardize_columns_idempotent (df : DataFrame) :
  standardize_columns (standardize_columns df) = standardize_columns df
  /\ rows (standardize_columns df) = rows df
  /\ List.length (columns (standardize_columns df))
     = List.length (columns df).
Proof.
  unfold standardize_columns. cbn [columns rows].
  rewrite map_map, length_map. repeat split.
  f_equal. apply map_ext. intros c. apply normalise_idem.
Qed.

(** ** Step 3: which rows survive *)

Lemma insert_perm {A} (le : A -> A -> bool) (x : A) (l : list A) :
  Permutation (insert le x l) (x :: l).
Proof.
  induction l as [| y l IH]; cbn [insert]; [reflexivity |].
  destruct (le x y); [reflexivity |].
  rewrite IH. apply perm_swap.
Qed.

Lemma sort_perm {A} (le : A -> A -> bool) (l : list A) :
  Permutation (sort le l) l.
Proof.
  induction l as [| x l IH]; cbn [sort]; [reflexivity |].
  rewrite insert_perm. now constructor.
Qed.






(** ** Cleaning as a whole *)

Lemma length_filter_le {A} (f : A -> bool) (l : list A) :
  (List.length (filter f l) <= List.length l)%nat.
Proof.
  induction l as [| x l IH]; cbn [filter List.length]; [lia |].
  destruct (f x); cbn [List.length]; lia.
Qed.

Lemma length_sort {A} (le : A -> A -> bool) (l : list A) :
  List.length (sort le l) = List.length l.
Proof. apply Permutation_length, sort_perm. Qed.

Lemma length_parse_months_rows (cols : list string)
  (rs : list (list cell)) :
  (List.length (parse_months_rows cols rs) <= List.length rs)%nat.
Proof.
  unfold parse_months_rows. rewrite length_sort.
  etransitivity; [apply length_filter_le |].
  destruct (forallb isna _); unfold assign; rewrite ?length_map; lia.
Qed.

Lemma clean_shrinks_rows (E : External) (df0 df : DataFrame) :
  clean E df0 = inr df -> (len df <= len df0)%nat.
Proof.
  intros H. apply clean_inv in H as (_ & _ & _ & ->).
  unfold convert_numerics_frame, len. cbn [rows columns].
  etransitivity; [apply length_filter_le |]. rewrite length_map.
  apply length_parse_months_rows.
Qed.

(** X7: cleaning never adds a row and never loses or reorders a column: the
    cleaned history has at most as many rows as the table read, and its
    headers are the normalised headers, followed by [Net_Cashflow] when the
    table had no such column. *)
Theorem clean_shrinks (E : External) (df0 df : DataFrame) :
  clean E df0 = inr df ->
  (len df <= len df0)%nat
  /\ columns df
     = if has_column "Net_Cashflow" (columns (standardize_columns df0))
       then columns (standardize_columns df0)
       else columns (standardize_columns df0) ++ ["Net_Cashflow"].
Proof.
  intros H. split; [exact (clean_shrinks_rows E df0 df H) |].
  apply clean_inv in H as (_ & _ & _ & ->). reflexivity.
Qed.

Lemma clean_shrinks_witness :
  (2 <= len Fixtures.short_df)%nat
  /\ ["Month"; "Inflow"; "Outflow"; "Net_Cashflow"]
     = if has_column "Net_Cashflow"
            (columns (standardize_columns Fixtures.short_df))
       then columns (standardize_columns Fixtures.short_df)
       else columns (standardize_columns Fixtures.short_df)
            ++ ["Net_Cashflow"].
Proof.
  apply (clean_shrinks Fixtures.E_fit Fixtures.short_df
           (mkDF ["Month"; "Inflow"; "Outflow"; "Net_Cashflow"]
                 [[CDate Fixtures.jan24; CNum 1000; CNum (-400); CNum 600];
                  [CDate (mkDate 2024 4 1); CNum 990; CNum (-410);
                   CNum 580]])).
  vm_compute. reflexivity.
Defined.

(** ** The records of a successful response *)

Lemma replace_nonfinite_finite (c : cell) :
  finite_cell (replace_nonfinite c) = true.
Proof.
  destruct c as [s | x | d | |]; try reflexivity.
  cbn [replace_nonfinite].
  destruct (PrimFloat.is_nan x || PrimFloat.is_infinity x) eqn:H;
    [reflexivity |].
  cbn [finite_cell]. now rewrite H.
Qed.

Lemma to_record_finite (cols new_cols : list string) (r : list cell) :
  Forall (fun kv => finite_cell (snd kv) = true) (to_record cols new_cols r).
Proof.
  unfold to_record. apply Forall_forall. intros kv Hin.
  apply in_map_iff in Hin as [k [<- _]]. apply replace_nonfinite_finite.
Qed.


(** X8: no record of a successful response holds a NaN or an infinity: every
    numeric value sent is finite. *)
Theorem response_values_finite (E : External) (req : request) (n : nat)
  (recs : list record) (t : trace) :
  forecast E req = (JsonSuccess n recs, t) ->
  Forall (fun rec => Forall (fun kv => finite_cell (snd kv) = true) rec) recs.
Proof.
  intros H. apply forecast_success_inv in H
    as (file & k & df0 & df & s_in & s_out & fi & fo & t1 & d & _ & _ & _
        & _ & _ & _ & _ & _ & _ & _ & _ & _ & _ & ->).
  apply Forall_app. unfold history_records, forecast_records.
  split; apply Forall_forall; intros rec Hin;
    apply in_map_iff in Hin as [r [<- _]]; apply to_record_finite.
Qed.

Lemma response_values_finite_witness :
  Forall (fun rec => Forall (fun kv => finite_cell (snd kv) = true) rec)
         Tables.mixed_records.
Proof.
  apply (response_values_finite Tables.E_fit Tables.mixed 3
           Tables.mixed_records Tables.mixed_trace).
  vm_compute. reflexivity.
Defined.



Lemma forecast_records_aliases (df : DataFrame) (d : date)
  (fi fo : list float) :
  List.length fi = 12%nat -> List.length fo = 12%nat ->
  map (record_get "Inflow") (forecast_records df d fi fo)
  = map (record_get "Inflow_Forecast") (forecast_records df d fi fo)
  /\ map (record_get "Outflow") (forecast_records df d fi fo)
     = map (record_get "Outflow_Forecast") (forecast_records df d fi fo)
  /\ map (record_get "Net_Cashflow") (forecast_records df d fi fo)
     = map (record_get "Net_Cashflow_Forecast")
           (forecast_records df d fi fo).
Proof.
  intros Hfi Hfo. unfold forecast_records, forecast_rows.
  set (idx := date_range_MS (MonthBegin1 d) 12).
  assert (Hidx : List.length idx = 12%nat) by apply length_date_range.
  clearbody idx. rewrite !map_map.
  destruct (length_12 idx Hidx)
    as (d1 & d2 & d3 & d4 & d5 & d6 & d7 & d8 & d9 & d10 & d11 & d12 & ->).
  destruct (length_12 fi Hfi)
    as (x1 & x2 & x3 & x4 & x5 & x6 & x7 & x8 & x9 & x10 & x11 & x12 & ->).
  destruct (length_12 fo Hfo)
    as (y1 & y2 & y3 & y4 & y5 & y6 & y7 & y8 & y9 & y10 & y11 & y12 & ->).
  cbn [combine map fst snd].
  rewrite !record_get_to_record
    by (apply In_combined_right; simpl; tauto).
  repeat split; reflexivity.
Qed.

(** X10: in every forecast record of a successful response the fields
    [Inflow], [Outflow] and [Net_Cashflow] repeat the fields
    [Inflow_Forecast], [Outflow_Forecast] and [Net_Cashflow_Forecast]. *)
Theorem forecast_fields_aliased (E : External) (req : request) (n : nat)
  (recs : list record) (t : trace) :
  forecast E req = (JsonSuccess n recs, t) ->
  map (record_get "Inflow") (skipn n recs)
  = map (record_get "Inflow_Forecast") (skipn n recs)
  /\ map (record_get "Outflow") (skipn n recs)
     = map (record_get "Outflow_Forecast") (skipn n recs)
  /\ map (record_get "Net_Cashflow") (skipn n recs)
     = map (record_get "Net_Cashflow_Forecast") (skipn n recs).
Proof.
  intros H. apply forecast_success_inv in H
    as (file & k & df0 & df & s_in & s_out & fi & fo & t1 & d & _ & _ & _
        & _ & Hn & _ & _ & _ & _ & _ & _ & Hfi & Hfo & ->).
  subst n. rewrite skipn_history.
  now apply forecast_records_aliases.
Qed.

Lemma forecast_fields_aliased_witness :
  map (record_get "Inflow") (skipn 3 Tables.mixed_records)
  = map (record_get "Inflow_Forecast") (skipn 3 Tables.mixed_records)
  /\ map (record_get "Outflow") (skipn 3 Tables.mixed_records)
     = map (record_get "Outflow_Forecast") (skipn 3 Tables.mixed_records)
  /\ map (record_get "Net_Cashflow") (skipn 3 Tables.mixed_records)
     = map (record_get "Net_Cashflow_Forecast")
           (skipn 3 Tables.mixed_records).
Proof.
  apply (forecast_fields_aliased Tables.E_fit Tables.mixed 3
           Tables.mixed_records Tables.mixed_trace).
  vm_compute. reflexivity.
Defined.




(** ** What the adapter is called with, and in which order *)




Lemma map_fst_combine {A B} (l : list A) (l' : list B) :
  List.length l = List.length l' -> map fst (combine l l') = l.
Proof.
  revert l'. induction l as [| x l IH]; intros [| y l'] H;
    try discriminate; [reflexivity |].
  cbn [combine map fst]. f_equal. apply IH. simpl in H. lia.
Qed.

Lemma map_snd_combine {A B} (l : list A) (l' : list B) :
  List.length l = List.length l' -> map snd (combine l l') = l'.
Proof.
  revert l'. induction l as [| x l IH]; intros [| y l'] H;
    try discriminate; [reflexivity |].
  cbn [combine map snd]. f_equal. apply IH. simpl in H. lia.
Qed.

(** X13: when a rectangular table leads to a successful response, each of the
    two models was given a series with one point per cleaned row, indexed by
    the months of the cleaned history in ascending order, whose values are
    the coerced cash flows of those rows, none of them NaN. *)
Theorem adapter_sees_clean_series (E : External) (file : FileStorage)
  (k : file_kind) (df0 : DataFrame) (n : nat) (recs : list record)
  (t : trace) :
  reader (filename file) = Some k ->
  match k with
  | Csv => read_csv E (stream file)
  | Excel => read_excel E (stream file)
  end = inr df0 ->
  wf df0 ->
  forecast E (Some file) = (JsonSuccess n recs, t) ->
  exists df s_in s_out fi fo t1,
    clean E df0 = inr df
    /\ safe_forecast E s_in "Inflow" [EvRead k] = (inr fi, t1)
    /\ safe_forecast E s_out "Outflow" t1 = (inr fo, t)
    /\ List.length s_in = n /\ List.length s_out = n
    /\ map fst s_in = map CDate (history_dates df)
    /\ map fst s_out = map CDate (history_dates df)
    /\ StronglySorted (fun a b => date_leb a b = true) (history_dates df)
    /\ map (fun x => Some (CNum x)) (map snd s_in)
       = map (row_get (columns df) "Inflow") (rows df)
    /\ map (fun x => Some (CNum x)) (map snd s_out)
       = map (row_get (columns df) "Outflow") (rows df)
    /\ Forall (fun p => PrimFloat.is_nan (snd p) = false) s_in
    /\ Forall (fun p => PrimFloat.is_nan (snd p) = false) s_out.
Proof.
  intros Hk Hread Hwf H. apply forecast_success_inv in H
    as (file' & k' & df0' & df & s_in & s_out & fi & fo & t1 & d & Hreq & Hk'
        & Hread' & Hclean & Hn & _ & Hin & Hout & Hsi & Hso & _ & _ & _ & _).
  injection Hreq as <-. rewrite Hk in Hk'. injection Hk' as <-.
  rewrite Hread in Hread'. injection Hread' as <-.
  destruct (clean_unique E df0 df Hclean) as (Hm & Hi & Ho).
  pose proof (clean_dated E df0 df Hclean) as Hd.
  pose proof (cleaned_net_is_sum E df0 df Hwf Hclean) as Hsum.
  rewrite Forall_forall in Hd, Hsum.
  rewrite (series_of_unique df "Inflow" Hi Hm) in Hin.
  rewrite (series_of_unique df "Outflow" Ho Hm) in Hout.
  injection Hin as <-. injection Hout as <-.
  exists df. do 2 eexists. exists fi, fo, t1.
  split; [exact Hclean |]. split; [exact Hsi |]. split; [exact Hso |].
  assert (Hmonths : map (cell_of (columns df) "Month") (rows df)
                    = map CDate (history_dates df)).
  { unfold history_dates. rewrite map_map. apply map_ext_in.
    intros r Hr. now apply cell_of_dated, Hd. }
  assert (Hlen : forall key,
             List.length (map (cell_of (columns df) "Month") (rows df))
             = List.length (map to_float
                              (map (cell_of (columns df) key) (rows df)))).
  { intros key. now rewrite !length_map. }
  split; [rewrite length_combine, <- Hlen, length_map, Nat.min_id;
          now subst n |].
  split; [rewrite length_combine, <- Hlen, length_map, Nat.min_id;
          now subst n |].
  split; [now rewrite (map_fst_combine _ _ (Hlen "Inflow")) |].
  split; [now rewrite (map_fst_combine _ _ (Hlen "Outflow")) |].
  split; [exact (clean_sorted E df0 df Hclean) |].
  rewrite (map_snd_combine _ _ (Hlen "Inflow")),
    (map_snd_combine _ _ (Hlen "Outflow")).
  assert (Hnum : forall r, In r (rows df) ->
             exists i o,
               row_get (columns df) "Inflow" r = Some (CNum i)
               /\ row_get (columns df) "Outflow" r = Some (CNum o)
               /\ to_float (cell_of (columns df) "Inflow" r) = i
               /\ to_float (cell_of (columns df) "Outflow" r) = o
               /\ PrimFloat.is_nan i = false /\ PrimFloat.is_nan o = false).
  { intros r Hr. destruct (Hsum r Hr) as (i & o & Hgi & Hgo & _ & Hni & Hno).
    exists i, o. unfold cell_of. rewrite Hgi, Hgo.
    repeat split; assumption || reflexivity. }
  split; [| split; [| split]].
  - rewrite !map_map. apply map_ext_in. intros r Hr.
    destruct (Hnum r Hr) as (i & o & -> & _ & -> & _). reflexivity.
  - rewrite !map_map. apply map_ext_in. intros r Hr.
    destruct (Hnum r Hr) as (i & o & _ & -> & _ & -> & _). reflexivity.
  - apply Forall_forall. intros [c x] Hp. apply in_combine_r in Hp.
    rewrite map_map in Hp. apply in_map_iff in Hp as [r [<- Hr]].
    destruct (Hnum r Hr) as (i & o & _ & _ & -> & _ & Hni & _). exact Hni.
  - apply Forall_forall. intros [c x] Hp. apply in_combine_r in Hp.
    rewrite map_map in Hp. apply in_map_iff in Hp as [r [<- Hr]].
    destruct (Hnum r Hr) as (i & o & _ & _ & _ & -> & _ & Hno). exact Hno.
Qed.

Lemma adapter_sees_clean_series_witness :
  exists df s_in s_out fi fo t1,
    clean Tables.E_fit Tables.mixed_df = inr df
    /\ safe_forecast Tables.E_fit s_in "Inflow" [EvRead Csv] = (inr fi, t1)
    /\ safe_forecast Tables.E_fit s_out "Outflow" t1
       = (inr fo, Tables.mixed_trace)
    /\ List.length s_in = 3%nat /\ List.length s_out = 3%nat
    /\ map fst s_in = map CDate (history_dates df)
    /\ map fst s_out = map CDate (history_dates df)
    /\ StronglySorted (fun a b => date_leb a b = true) (history_dates df)
    /\ map (fun x => Some (CNum x)) (map snd s_in)
       = map (row_get (columns df) "Inflow") (rows df)
    /\ map (fun x => Some (CNum x)) (map snd s_out)
       = map (row_get (columns df) "Outflow") (rows df)
    /\ Forall (fun p => PrimFloat.is_nan (snd p) = false) s_in
    /\ Forall (fun p => PrimFloat.is_nan (snd p) = false) s_out.
Proof.
  apply (adapter_sees_clean_series Tables.E_fit (mkFile "mixed.csv" "mixed")
           Csv Tables.mixed_df 3 Tables.mixed_records Tables.mixed_trace);
    [reflexivity | reflexivity | reflexivity | vm_compute; reflexivity].
Defined.

(** ** Columns the handler does not know *)

Lemma row_get_app_other (cols : list string) (key k : string)
  (r : list cell) (v : cell) :
  String.eqb k key = false ->
  List.length r = List.length cols ->
  row_get (cols ++ [key]) k (r ++ [v]) = row_get cols k r.
Proof.
  intros Hk. revert r.
  induction cols as [| k' cols IH]; intros [| c r] Hlen; try discriminate.
  - cbn [app row_get]. now rewrite Hk.
  - cbn [app row_get]. destruct (String.eqb k k'); [reflexivity |].
    apply IH. simpl in Hlen. lia.
Qed.

Lemma canonical_false (k : string) :
  canonical k = false ->
  String.eqb "Month" k = false /\ String.eqb "Inflow" k = false
  /\ String.eqb "Outflow" k = false /\ String.eqb "Net_Cashflow" k = false.
Proof.
  unfold canonical. rewrite !orb_false_iff.
  rewrite (String.eqb_sym k "Month"), (String.eqb_sym k "Inflow"),
    (String.eqb_sym k "Outflow"), (String.eqb_sym k "Net_Cashflow").
  tauto.
Qed.

(** X14: cleaning changes nothing but the four columns [Month], [Inflow],
    [Outflow] and [Net_Cashflow]: every row of the cleaned history comes from
    a row of the table read and agrees with it under every other header. *)
Theorem other_columns_pass_through (E : External) (df0 df : DataFrame) :
  wf df0 ->
  clean E df0 = inr df ->
  forall r', In r' (rows df) ->
    exists r, In r (rows df0)
      /\ forall k, canonical k = false ->
           row_get (columns df) k r'
           = row_get (columns (standardize_columns df0)) k r.
Proof.
  intros Hwf Hclean r' Hin.
  apply wf_standardize in Hwf. rewrite wf_Forall in Hwf.
  rewrite Forall_forall in Hwf.
  apply clean_inv in Hclean as (Hm & Hi & Ho & ->).
  set (cols := columns (standardize_columns df0)) in *.
  change (rows (standardize_columns df0)) with (rows df0) in Hwf.
  unfold convert_numerics_frame in *. cbn [rows columns] in *.
  apply filter_In in Hin as [Hin _].
  apply in_map_iff in Hin as [r1 [<- Hr1]].
  unfold parse_months_rows in Hr1.
  apply in_sort in Hr1. apply filter_In in Hr1 as [Hr1 _].
  assert (Hsrc : exists r, In r (rows df0)
                   /\ List.length r1 = List.length cols
                   /\ forall k, String.eqb "Month" k = false ->
                        row_get cols k r1 = row_get cols k r).
  { destruct (forallb isna _); unfold assign in Hr1.
    - apply in_map_iff in Hr1 as [r0 [<- Hr0]].
      apply in_map_iff in Hr0 as [r [<- Hr]].
      exists r. split; [exact Hr |]. split.
      + rewrite !length_set_row. now apply Hwf.
      + intros k Hk. now rewrite !row_get_set_row_other.
    - apply in_map_iff in Hr1 as [r [<- Hr]].
      exists r. split; [exact Hr |]. split.
      + rewrite length_set_row. now apply Hwf.
      + intros k Hk. now rewrite row_get_set_row_other. }
  destruct Hsrc as (r & Hr & Hlen & Hsame).
  exists r. split; [exact Hr |].
  intros k Hk. apply canonical_false in Hk as (Hkm & Hki & Hko & Hkn).
  rewrite <- (Hsame k Hkm).
  assert (Hnum : row_get cols k (numeric_row E cols r1) = row_get cols k r1).
  { unfold numeric_row. now rewrite !row_get_set_row_other. }
  rewrite <- Hnum. unfold net_columns, with_net.
  destruct (has_column "Net_Cashflow" cols).
  - now rewrite row_get_set_row_other.
  - apply row_get_app_other.
    + now rewrite String.eqb_sym.
    + unfold numeric_row. now rewrite !length_set_row.
Qed.

Lemma other_columns_pass_through_witness :
  wf Tables.mixed_df
  /\ exists r, In r (rows Tables.mixed_df)
       /\ forall k, canonical k = false ->
            row_get ["Month"; "Inflow"; "Outflow"; "Note"; "Net_Cashflow"] k
                    [CDate Fixtures.mar24; CNum 1050; CNum (-420); CStr "c";
                     CNum 630]
            = row_get (columns (standardize_columns Tables.mixed_df)) k r.
Proof.
  split; [reflexivity |].
  apply (other_columns_pass_through Tables.E_fit Tables.mixed_df
           (mkDF ["Month"; "Inflow"; "Outflow"; "Note"; "Net_Cashflow"]
                 [[CDate (mkDate 2024 1 15); CNum 1000; CNum (-400);
                   CStr "a"; CNum 600];
                  [CDate Fixtures.mar24; CNum 1050; CNum (-420); CStr "c";
                   CNum 630];
                  [CDate (mkDate 2024 4 1); CNum 990; CNum (-410); CNum 7;
                   CNum 580]])).
  - reflexivity.
  - vm_compute. reflexivity.
  - right. left. reflexivity.
Defined.

(** ** Month text in and out *)

Lemma label_unparsed (d : date) :
  strptime fmt_y_b (strftime_b_Y d) = None
  /\ strptime fmt_d_b_y (strftime_b_Y d) = None.
Proof.
  unfold strftime_b_Y. generalize (string_of_Z (year d)). intros y.
  generalize (Z.to_nat (month d - 1)). intros i. unfold month_abbr.
  do 12 (destruct i as [| i]; [split; reflexivity |]).
  replace (nth _ _ _) with EmptyString by now destruct i.
  cbn [String.append]. destruct y as [| c r]; split; reflexivity.
Qed.

(** X15: the month labels the handler writes ([Jan-2025]) are read by
    neither of its two input formats, so a table whose months are such
    labels loses every row in step 3: a response cannot be fed back as an
    upload. *)
Theorem own_labels_rejected (df : DataFrame) (ds : list date) :
  unique "Month" (columns df) = true ->
  map (cell_of (columns df) "Month") (rows df)
  = map (fun d => CStr (strftime_b_Y d)) ds ->
  (forall d, In d ds ->
     to_datetime fmt_y_b (CStr (strftime_b_Y d)) = CNaT
     /\ to_datetime fmt_d_b_y (CStr (strftime_b_Y d)) = CNaT)
  /\ parse_months df = inr (mkDF (columns df) []).
Proof.
  intros Hu Hcol. split.
  - intros d _. cbn [to_datetime].
    destruct (label_unparsed d) as [-> ->]. now split.
  - apply (primary_failure_drops_all df Hu).
    assert (H : Forall (fun c => to_datetime fmt_y_b c = CNaT)
                       (map (cell_of (columns df) "Month") (rows df))).
    { rewrite Hcol. apply Forall_forall. intros c Hc.
      apply in_map_iff in Hc as [d [<- _]]. cbn [to_datetime].
      now destruct (label_unparsed d) as [-> _]. }
    rewrite Forall_forall in H. apply Forall_forall. intros r Hr.
    apply H. now apply in_map.
Qed.

Lemma own_labels_rejected_witness :
  parse_months
    (mkDF ["Month"; "Inflow"; "Outflow"]
          [[CStr "Jan-2025"; CNum 1; CNum 1];
           [CStr "Feb-2025"; CNum 1; CNum 1]])
  = inr (mkDF ["Month"; "Inflow"; "Outflow"] []).
Proof.
  apply (proj2 (own_labels_rejected
                  (mkDF ["Month"; "Inflow"; "Outflow"]
                        [[CStr "Jan-2025"; CNum 1; CNum 1];
                         [CStr "Feb-2025"; CNum 1; CNum 1]])
                  [mkDate 2025 1 1; mkDate 2025 2 1]
                  eq_refl eq_refl)).
Defined.

Lemma is_digit_val (c : ascii) :
  is_digit c = true -> (0 <= digit_val c <= 9)%Z.
Proof.
  unfold is_digit, digit_val. intros H.
  apply andb_true_iff in H as [H1 H2].
  apply Nat.leb_le in H1. apply Nat.leb_le in H2. lia.
Qed.

Lemma match_y_range (s r : string) (y : Z) :
  match_y s = Some (y, r) -> (1969 <= y <= 2068)%Z.
Proof.
  unfold match_y. destruct s as [| c1 [| c2 s]]; try discriminate.
  destruct (is_digit c1 && is_digit c2) eqn:Hd; [| discriminate].
  apply andb_true_iff in Hd as [H1 H2].
  apply is_digit_val in H1. apply is_digit_val in H2. cbv zeta.
  set (v := (10 * digit_val c1 + digit_val c2)%Z).
  assert (Hv : (0 <= v <= 99)%Z) by (unfold v; lia). clearbody v.
  destruct (Z.leb_spec v 68); intros Heq.
  - assert (Hy : y = (2000 + v)%Z) by congruence. lia.
  - assert (Hy : y = (1900 + v)%Z) by congruence. lia.
Qed.

Lemma index_ci_range (s : string) (l : list string) (i m : Z) :
  index_ci s l i = Some m -> (i <= m < i + Z.of_nat (List.length l))%Z.
Proof.
  revert i. induction l as [| x l IH]; intros i; cbn [index_ci];
    [discriminate |].
  destruct (String.eqb (lower_string x) (lower_string s)).
  - intros [= <-]. cbn [List.length]. lia.
  - intros H. apply IH in H. cbn [List.length]. lia.
Qed.

Lemma match_b_range (s r : string) (m : Z) :
  match_b s = Some (m, r) -> (1 <= m <= 12)%Z.
Proof.
  unfold match_b. destruct s as [| c1 [| c2 [| c3 s]]]; try discriminate.
  destruct (index_ci _ month_abbr 1) as [m' |] eqn:Hi; [| discriminate].
  intros [= <- _]. apply index_ci_range in Hi. simpl in Hi. lia.
Qed.

(** X16: a month that step 3 reads from text is the first day of a calendar
    month between January 1969 and December 2068: the format has no day, and
    its two-digit year is placed in that window. *)
Theorem text_month_range (s : string) (d : date) :
  to_datetime fmt_y_b (CStr s) = CDate d ->
  day d = 1%Z /\ (1 <= month d <= 12)%Z /\ (1969 <= year d <= 2068)%Z.
Proof.
  cbn [to_datetime]. unfold strptime, fmt_y_b. cbn [match_format].
  destruct (match_y s) as [[y r] |] eqn:Hy; [| discriminate].
  destruct r as [| c r]; [discriminate |].
  destruct (Ascii.eqb "-" c); [| discriminate].
  destruct (match_b r) as [[m r'] |] eqn:Hm; [| discriminate].
  destruct r' as [| c' r']; [| discriminate].
  cbn [f_year f_month f_day].
  destruct (valid_date _); [| discriminate].
  intros [= <-]. cbn [year month day].
  apply match_y_range in Hy. apply match_b_range in Hm. auto.
Qed.

Lemma text_month_range_witness :
  day Fixtures.jan24 = 1%Z
  /\ (1 <= month Fixtures.jan24 <= 12)%Z
  /\ (1969 <= year Fixtures.jan24 <= 2068)%Z.
Proof.
  apply (text_month_range "24-Jan" Fixtures.jan24). reflexivity.
Defined.

(** ** The choice of the reader *)

Lemma length_append (p s : string) :
  String.length (String.append p s)
  = (String.length p + String.length s)%nat.
Proof.
  induction p as [| c p IH]; cbn [String.append String.length];
    [reflexivity | now rewrite IH].
Qed.

Lemma substring_whole (s : string) : substring 0 (String.length s) s = s.
Proof.
  induction s as [| c s IH]; cbn [String.length substring];
    [reflexivity | now rewrite IH].
Qed.

Lemma substring_suffix (p s : string) :
  substring (String.length p) (String.length s) (String.append p s) = s.
Proof.
  induction p as [| c p IH]; cbn [String.append String.length].
  - apply substring_whole.
  - cbn [substring]. exact IH.
Qed.

Lemma substring_split (s : string) (i : nat) :
  (i <= String.length s)%nat ->
  s = String.append (substring 0 i s)
                    (substring i (String.length s - i) s).
Proof.
  revert i. induction s as [| c s IH]; intros i Hi.
  - cbn [String.length] in Hi. assert (i = 0%nat) by lia. now subst.
  - destruct i as [| i].
    + rewrite Nat.sub_0_r, substring_whole. reflexivity.
    + cbn [String.length] in *. cbn [substring String.append Nat.sub].
      f_equal. apply IH. lia.
Qed.

Lemma endswith_iff (s suffix : string) :
  endswith s suffix = true <-> exists p, s = String.append p suffix.
Proof.
  unfold endswith. split.
  - intros H. apply andb_true_iff in H as [Hle Heq].
    apply Nat.leb_le in Hle. apply String.eqb_eq in Heq.
    remember (String.length s) as n eqn:Hn.
    remember (String.length suffix) as k eqn:Hk.
    exists (substring 0 (n - k) s).
    pose proof (substring_split s (n - k)) as Hsplit.
    rewrite <- Hn in Hsplit.
    replace (n - (n - k))%nat with k in Hsplit by lia.
    rewrite Heq in Hsplit. apply Hsplit. lia.
  - intros [p ->]. rewrite length_append. apply andb_true_iff. split.
    + apply Nat.leb_le. lia.
    + replace (String.length p + String.length suffix
               - String.length suffix)%nat
        with (String.length p) by lia.
      rewrite substring_suffix. apply String.eqb_refl.
Qed.

(** X17: the reader is chosen from the end of the file name alone, in the
    order of the code: a name [p.csv] is read as CSV; failing that, a name
    [p.xlsx] or [p.xls] is read as a workbook; every other name is refused.
    The comparison is exact, so it is sensitive to case. *)
Theorem reader_by_suffix (name : string) :
  (reader name = Some Csv <-> exists p, name = String.append p ".csv")
  /\ (reader name = Some Excel <->
      (~ exists p, name = String.append p ".csv")
      /\ exists p, name = String.append p ".xlsx"
                   \/ name = String.append p ".xls")
  /\ (reader name = None <->
      forall p, name <> String.append p ".csv"
                /\ name <> String.append p ".xlsx"
                /\ name <> String.append p ".xls").
Proof.
  unfold reader.
  pose proof (endswith_iff name ".csv") as Hc.
  pose proof (endswith_iff name ".xlsx") as Hx.
  pose proof (endswith_iff name ".xls") as Hs.
  assert (Hc' : endswith name ".csv" = false ->
                ~ exists p, name = String.append p ".csv").
  { intros Hf H. apply Hc in H. congruence. }
  assert (Hx' : endswith name ".xlsx" = false ->
                ~ exists p, name = String.append p ".xlsx").
  { intros Hf H. apply Hx in H. congruence. }
  assert (Hs' : endswith name ".xls" = false ->
                ~ exists p, name = String.append p ".xls").
  { intros Hf H. apply Hs in H. congruence. }
  destruct (endswith name ".csv").
  - destruct (proj1 Hc eq_refl) as [p Hp].
    split; [split; [intros _; now exists p | reflexivity] |].
    split; split; try discriminate.
    + intros [Hno _]. exfalso. apply Hno. now exists p.
    + intros Hno. exfalso. now apply (proj1 (Hno p)).
  - specialize (Hc' eq_refl).
    split; [split; [| intros H; contradiction] |].
    { destruct (endswith name ".xlsx" || endswith name ".xls");
        discriminate. }
    destruct (endswith name ".xlsx").
    + destruct (proj1 Hx eq_refl) as [p Hp]. cbn [orb].
      split; split; try discriminate; try reflexivity.
      * intros _. split; [exact Hc' |]. exists p. now left.
      * intros Hno. exfalso. now apply (proj1 (proj2 (Hno p))).
    + cbn [orb]. specialize (Hx' eq_refl). destruct (endswith name ".xls").
      * destruct (proj1 Hs eq_refl) as [p Hp].
        split; split; try discriminate; try reflexivity.
        -- intros _. split; [exact Hc' |]. exists p. now right.
        -- intros Hno. exfalso. now apply (proj2 (proj2 (Hno p))).
      * specialize (Hs' eq_refl).
        split; split; try discriminate; try reflexivity.
        -- intros [_ [p [Hp | Hp]]]; exfalso; eauto.
        -- intros _ p. repeat split; intros Hp; eauto.
Qed.

Lemma reader_by_suffix_witness :
  reader "report.csv" = Some Csv /\ reader "REPORT.CSV" = None.
Proof.
  split.
  - apply (proj2 (proj1 (reader_by_suffix "report.csv"))).
    exists "report". reflexivity.
  - reflexivity.
Defined.

(** ** The labels of the forecast months *)

Lemma distinct_b_NoDup (l : list Z) : distinct_b l = true -> NoDup l.
Proof.
  induction l as [| x l IH]; cbn [distinct_b]; [constructor |].
  intros H. apply andb_true_iff in H as [Hx Hl]. constructor; [| auto].
  intros Hin. apply negb_true_iff in Hx.
  assert (Hex : existsb (Z.eqb x) l = true).
  { apply existsb_exists. exists x. split; [exact Hin | apply Z.eqb_refl]. }
  congruence.
Qed.

Lemma month_cases (m : Z) :
  (1 <= m <= 12)%Z ->
  (m = 1 \/ m = 2 \/ m = 3 \/ m = 4 \/ m = 5 \/ m = 6 \/ m = 7 \/ m = 8
   \/ m = 9 \/ m = 10 \/ m = 11 \/ m = 12)%Z.
Proof. lia. Qed.

Lemma label_month_shown (x : date) :
  (1 <= month x <= 12)%Z -> label_month (shown x) = month x.
Proof.
  destruct x as [y m dd]. cbn [month]. intros Hm.
  unfold shown, strftime_b_Y, label_month. cbn [month year].
  generalize (string_of_Z y). intros t.
  destruct (month_cases m Hm)
    as [-> | [-> | [-> | [-> | [-> | [-> | [-> | [-> | [-> | [-> | [->
        | ->]]]]]]]]]]];
    reflexivity.
Qed.

Lemma date_range_months (n : nat) (start x : date) :
  (1 <= month start <= 12)%Z ->
  In x (date_range_MS start n) -> (1 <= month x <= 12)%Z.
Proof.
  revert start. induction n as [| n IH]; intros start Hs;
    cbn [date_range_MS]; [contradiction |].
  intros [<- | Hin]; [exact Hs |].
  apply (IH (MonthBegin1 start)); [now apply MonthBegin1_month | exact Hin].
Qed.

(** X18: when the last historical month is a calendar month, the twelve
    forecast records carry twelve different month labels. *)
Theorem forecast_labels_distinct (d : date) :
  (1 <= month d <= 12)%Z ->
  NoDup (map shown (date_range_MS (MonthBegin1 d) 12)).
Proof.
  intros Hm. apply (NoDup_map_inv label_month). rewrite map_map.
  rewrite (map_ext_in _ month).
  - apply distinct_b_NoDup. destruct d as [y m dd]. cbn [month] in Hm.
    destruct (month_cases m Hm)
      as [-> | [-> | [-> | [-> | [-> | [-> | [-> | [-> | [-> | [-> | [->
          | ->]]]]]]]]]]];
      vm_compute; reflexivity.
  - intros x Hx. apply label_month_shown.
    apply (date_range_months 12 (MonthBegin1 d) x);
      [now apply MonthBegin1_month | exact Hx].
Qed.

Lemma forecast_labels_distinct_witness :
  NoDup (map shown (date_range_MS (MonthBegin1 Fixtures.mar24) 12)).
Proof.
  apply (forecast_labels_distinct Fixtures.mar24). cbn [month Fixtures.mar24].
  lia.
Defined.

(** ** Invariants of the cleaned history *)

Lemma wf_clean (E : External) (df0 df : DataFrame) :
  wf df0 -> clean E df0 = inr df -> wf df.
Proof.
  intros Hwf Hclean.
  apply clean_inv in Hclean as (Hm & _ & _ & ->).
  set (cols := columns (standardize_columns df0)) in *.
  pose proof (wf_parse_months _ _ (wf_standardize _ Hwf)
                (parse_months_unique (standardize_columns df0) Hm)) as Hwfm.
  rewrite wf_Forall in *. cbn [rows columns] in Hwfm.
  rewrite Forall_forall in *.
  unfold convert_numerics_frame. cbn [rows columns]. intros r' Hin.
  apply filter_In in Hin as [Hin _].
  apply in_map_iff in Hin as [r [<- Hr]].
  specialize (Hwfm r Hr). unfold net_columns, with_net, numeric_row.
  destruct (has_column "Net_Cashflow" cols).
  - rewrite !length_set_row. exact Hwfm.
  - rewrite !length_app, !length_set_row. cbn [List.length].
    fold cols in Hwfm. lia.
Qed.

(** X19: what cleaning establishes: the headers [Month], [Inflow] and
    [Outflow] each occur exactly once and [Net_Cashflow] occurs; every row
    holds a Timestamp under [Month] (no NaT is left); and a rectangular table
    stays rectangular. *)
Theorem cleaned_invariants (E : External) (df0 df : DataFrame) :
  clean E df0 = inr df ->
  unique "Month" (columns df) = true
  /\ unique "Inflow" (columns df) = true
  /\ unique "Outflow" (columns df) = true
  /\ has_column "Net_Cashflow" (columns df) = true
  /\ Forall (dated (columns df)) (rows df)
  /\ (wf df0 -> wf df).
Proof.
  intros H. destruct (clean_unique E df0 df H) as (Hm & Hi & Ho).
  split; [exact Hm |]. split; [exact Hi |]. split; [exact Ho |].
  split.
  - pose proof H as Hinv. apply clean_inv in Hinv as (_ & _ & _ & ->).
    unfold convert_numerics_frame, net_columns. cbn [columns].
    set (cols := columns (standardize_columns df0)).
    destruct (has_column "Net_Cashflow" cols) eqn:Hn; [exact Hn |].
    rewrite has_column_app, Hn. reflexivity.
  - split; [exact (clean_dated E df0 df H) |].
    intros Hwf. exact (wf_clean E df0 df Hwf H).
Qed.

Lemma cleaned_invariants_witness :
  let df := mkDF ["Month"; "Inflow"; "Outflow"; "Net_Cashflow"]
                 [[CDate Fixtures.jan24; CNum 1000; CNum (-400); CNum 600];
                  [CDate (mkDate 2024 4 1); CNum 990; CNum (-410);
                   CNum 580]] in
  unique "Month" (columns df) = true
  /\ unique "Inflow" (columns df) = true
  /\ unique "Outflow" (columns df) = true
  /\ has_column "Net_Cashflow" (columns df) = true
  /\ Forall (dated (columns df)) (rows df)
  /\ (wf Fixtures.short_df -> wf df).
Proof.
  apply (cleaned_invariants Fixtures.E_fit Fixtures.short_df).
  vm_compute. reflexivity.
Defined.





(** ** When a model is fitted at all *)

(** X22: whatever the request and however it ends, a model is fitted only
    after the upload was read and cleaned into at least 3 rows: no model
    ever sees fewer than three points. *)
Theorem fit_only_after_gate (E : External) (req : request) (m : smoothing)
  (label : string) :
  In (EvFit m label) (snd (forecast E req)) ->
  exists file k df0 df,
    req = Some file
    /\ reader (filename file) = Some k
    /\ match k with
       | Csv => read_csv E (stream file)
       | Excel => read_excel E (stream file)
       end = inr df0
    /\ clean E df0 = inr df
    /\ (3 <= len df)%nat.
Proof.
  assert (Hsnd : snd (forecast E req) = snd (forecast_body E req [])).
  { unfold forecast. now destruct (forecast_body E req []) as [[e | r] t]. }
  rewrite Hsnd. clear Hsnd. unfold forecast_body.
  destruct req as [file |]; [| intros []].
  destruct (String.eqb (filename file) EmptyString); [intros [] |].
  destruct (reader (filename file)) as [k |] eqn:Hk; [| intros []].
  unfold bind at 1, call.
  destruct (match k with
            | Csv => read_csv E (stream file)
            | Excel => read_excel E (stream file)
            end) as [e | df0] eqn:Hread; cbn [app snd].
  { intros [Hin | []]. discriminate. }
  unfold bind at 1, lift.
  destruct (clean E df0) as [e | df] eqn:Hclean; cbn [snd].
  { intros [Hin | []]. discriminate. }
  destruct (len df <? 3)%nat eqn:Hlen.
  { unfold ret. cbn [snd]. intros [Hin | []]. discriminate. }
  intros _. apply Nat.ltb_ge in Hlen.
  exists file, k, df0, df. auto.
Qed.

Lemma fit_only_after_gate_witness :
  exists file k df0 df,
    Tables.mixed = Some file
    /\ reader (filename file) = Some k
    /\ match k with
       | Csv => read_csv Tables.E_fit (stream file)
       | Excel => read_excel Tables.E_fit (stream file)
       end = inr df0
    /\ clean Tables.E_fit df0 = inr df
    /\ (3 <= len df)%nat.
Proof.
  apply (fit_only_after_gate Tables.E_fit Tables.mixed Holt "Inflow").
  vm_compute. right. left. reflexivity.
Defined.

(** ** Cleaning a cleaned table *)











